(** * The GitLab commit report pipeline of [gitlab_commits.py]

    A shallow embedding of the fetch-and-aggregate pipeline: the project
    and user enumerators, the per-project commit fetcher with its fallback
    ladder, the fan-out over a worker pool, and the assembly of the report.

    Conventions of the embedding:
    - Python values are terms of [pyval]; a [dict] with string keys is a
      [gmap string pyval], an object of the python-gitlab client is its
      attribute dictionary;
    - a computation that may raise is a [result]; [try ... except] is
      [try_except] or a [match] on the result;
    - the remote server is an oracle: a record of functions from requests
      to answers (the upstream state does not change during one run);
    - [print] and the progress bar do not influence any returned value and
      are left out, except where evaluating the printed expression can
      raise. *)

From Stdlib Require Import ZArith Lia Ascii.
From stdpp Require Import base gmap strings list sets.

Set Warnings "-register-all".
Local Open Scope Z_scope.

(** ** Python values and exceptions *)

Inductive pyval : Type :=
  | PyNone
  | PyBool (b : bool)
  | PyInt (z : Z)
  | PyStr (s : string)
  | PyList (l : list pyval)
  | PyDict (d : gmap string pyval).

(** An exception instance: its class and the text [str(e)] gives. *)
Record exn : Type := Exn { exn_class : string; exn_msg : string }.

Inductive result (A : Type) : Type :=
  | Ok (a : A)
  | Raise (e : exn).
Arguments Ok {A} a.
Arguments Raise {A} e.

(** Sequencing: the first exception raised ends the computation. *)
#[global] Instance result_ret : MRet result := fun A a => Ok a.
#[global] Instance result_bind : MBind result := fun A B k c =>
  match c with
  | Ok a => k a
  | Raise e => Raise e
  end.

(** [try: body / except Exception as e: handler e]. *)
Definition try_except {A : Type} (body : result A) (handler : exn → result A)
  : result A :=
  match body with
  | Ok a => Ok a
  | Raise e => handler e
  end.

Definition is_ok {A : Type} (c : result A) : bool :=
  match c with Ok _ => true | Raise _ => false end.

(** [for x in xs: body] over a computation that may raise. *)
Fixpoint mapM {A B : Type} (f : A → result B) (xs : list A) : result (list B) :=
  match xs with
  | [] => Ok []
  | x :: xs' => y ← f x; ys ← mapM f xs'; Ok (y :: ys)
  end.

(** ** Attribute and key access *)

(** [obj.name] on a python-gitlab object with attribute dictionary [obj]. *)
Definition getattr (obj : gmap string pyval) (name : string) : result pyval :=
  match obj !! name with
  | Some v => Ok v
  | None => Raise (Exn "AttributeError" name)
  end.

(** [getattr(obj, name, dflt)]. *)
Definition getattr_default (obj : gmap string pyval) (name : string)
    (dflt : pyval) : pyval :=
  default dflt (obj !! name).

(** [hasattr(obj, name)]. *)
Definition hasattr (obj : gmap string pyval) (name : string) : bool :=
  match obj !! name with Some _ => true | None => false end.

(** [d.get(key, dflt)]. *)
Definition dict_get (d : gmap string pyval) (key : string) (dflt : pyval)
  : pyval :=
  default dflt (d !! key).

(** ** [filter_diff_data] *)

(** The body of the loop: the filtered item built from one [diff_item]. *)
Definition filter_diff_item (diff_item : gmap string pyval)
  : gmap string pyval :=
  let filtered_item : gmap string pyval :=
    <["old_path" := dict_get diff_item "old_path" (PyStr "")]>
      (<["new_path" := dict_get diff_item "new_path" (PyStr "")]> ∅) in
  match diff_item !! "new_file" with
  | Some new_file => <["new_file" := new_file]> filtered_item
  | None => filtered_item
  end.

(** [filtered_diff = []; for diff_item in diff: ...append(filtered_item)]. *)
Definition filter_diff_data (diff : list (gmap string pyval))
  : list (gmap string pyval) :=
  fold_left (fun filtered_diff diff_item =>
               filtered_diff ++ [filter_diff_item diff_item]) diff [].

(** The keys a filtered diff entry may carry. *)
Definition diff_entry_keys : gset string :=
  {[ "new_path"; "old_path"; "new_file" ]}.

(** ** Strings *)

(** [s.replace('Z', '+00:00')]: every [Z] of [s] becomes [+00:00]. *)
Fixpoint str_replace_Z (s : string) : string :=
  match s with
  | EmptyString => EmptyString
  | String c s' =>
      if Ascii.eqb c "Z"%char then "+00:00" +:+ str_replace_Z s'
      else String c (str_replace_Z s')
  end.

(** Whether the letter [Z] occurs in a string. *)
Fixpoint contains_Z (s : string) : bool :=
  match s with
  | EmptyString => false
  | String c s' => Ascii.eqb c "Z" || contains_Z s'
  end.

(** [range(lo, hi)]. *)
Definition py_range (lo hi : Z) : list Z :=
  map (fun i => lo + Z.of_nat i) (seq 0 (Z.to_nat (hi - lo))).

(** ** Dates and times

    A [datetime] holds its date as the proleptic Gregorian ordinal
    ([toordinal()], day 1 is 0001-01-01), which is how the library does its
    arithmetic, the time of day, and the UTC offset in seconds of an aware
    value ([None] for a naive one). *)

Record datetime : Type := Datetime {
  dt_ordinal : Z;
  dt_hour : Z;
  dt_minute : Z;
  dt_second : Z;
  dt_microsecond : Z;
  dt_utcoffset : option Z
}.

(** The ordinal of 9999-12-31, the last representable day. *)
Definition MAXORDINAL : Z := 3652059.

(** [dt.replace(hour=0, minute=0, second=0, microsecond=0)]. *)
Definition replace_midnight (dt : datetime) : datetime :=
  {| dt_ordinal := dt_ordinal dt; dt_hour := 0; dt_minute := 0;
     dt_second := 0; dt_microsecond := 0; dt_utcoffset := dt_utcoffset dt |}.

(** [datetime.timedelta(days=d)], a whole number of days. *)
Definition timedelta_days (d : Z) : result Z :=
  if (Z.abs d >? 999999999)
  then Raise (Exn "OverflowError" "days; must have magnitude <= 999999999")
  else Ok d.

(** [dt - delta] for a [delta] of whole days: the time of day is kept and
    the day must stay within 0001-01-01 .. 9999-12-31. *)
Definition datetime_sub (dt : datetime) (delta_days : Z) : result datetime :=
  let days := dt_ordinal dt - delta_days in
  if (0 <? days) && (days <=? MAXORDINAL)
  then Ok {| dt_ordinal := days; dt_hour := dt_hour dt;
             dt_minute := dt_minute dt; dt_second := dt_second dt;
             dt_microsecond := dt_microsecond dt;
             dt_utcoffset := dt_utcoffset dt |}
  else Raise (Exn "OverflowError" "date value out of range").

(** Microseconds since the start of day 0, as the fields read. *)
Definition wall_micros (dt : datetime) : Z :=
  (((dt_ordinal dt * 24 + dt_hour dt) * 60 + dt_minute dt) * 60
   + dt_second dt) * 1000000 + dt_microsecond dt.

(** [a <= b]: two naive values compare by their fields, two aware values
    by their instants, and a naive with an aware value raises. *)
Definition datetime_le (a b : datetime) : result bool :=
  match dt_utcoffset a, dt_utcoffset b with
  | None, None => Ok (wall_micros a <=? wall_micros b)
  | Some oa, Some ob =>
      Ok (wall_micros a - oa * 1000000 <=? wall_micros b - ob * 1000000)
  | _, _ => Raise (Exn "TypeError"
                     "can't compare offset-naive and offset-aware datetimes")
  end.

(** A reading of the local clock; [datetime.now()] gives it as a naive
    [datetime]. *)
Record wallclock : Type := Wallclock {
  wc_ordinal : Z;
  wc_hour : Z;
  wc_minute : Z;
  wc_second : Z;
  wc_microsecond : Z
}.

Definition datetime_now (t : wallclock) : datetime :=
  {| dt_ordinal := wc_ordinal t; dt_hour := wc_hour t;
     dt_minute := wc_minute t; dt_second := wc_second t;
     dt_microsecond := wc_microsecond t; dt_utcoffset := None |}.

(** ** The remote API and the runtime *)

(** [full_commit]: the object [project.commits.get(id)] returns. *)
Record CommitHandle : Type := {
  (** [full_commit.diff(get_all=True)] *)
  commit_diff : result (list (gmap string pyval))
}.

(** [project]: the object [gl.projects.get(id)] returns. *)
Record ProjectHandle : Type := {
  (** [project.commits.list(all=True, since=s, until=u)] *)
  commits_list_since_until : string → string → result (list (gmap string pyval));
  (** [project.commits.list(all=True, since=s)] *)
  commits_list_since : string → result (list (gmap string pyval));
  (** [project.commits.list(page=p, per_page=n)] *)
  commits_list_page : Z → Z → result (list (gmap string pyval));
  (** [project.commits.get(id)] *)
  commits_get : pyval → result CommitHandle
}.

(** What [gl.users.list(page=p, per_page=n)] returns: the users of the page
    and the attribute [total], when the object has one. *)
Record UserPage : Type := {
  page_users : list (gmap string pyval);
  page_total : option pyval
}.

(** [gl]: an authenticated client. *)
Record Gitlab : Type := {
  (** [gl.user] after [gl.auth()] *)
  gl_user : gmap string pyval;
  (** [gl.projects.list(all=True, visibility='all')] *)
  projects_list_visibility : result (list (gmap string pyval));
  (** [gl.projects.list(all=True)] *)
  projects_list_all : result (list (gmap string pyval));
  (** [gl.projects.list(page=p, per_page=n)] *)
  projects_list_page : Z → Z → result (list (gmap string pyval));
  (** [gl.projects.get(id)] *)
  projects_get : pyval → result ProjectHandle;
  (** [gl.users.list(page=p, per_page=n)] *)
  users_list_page : Z → Z → result UserPage;
  (** [gl.users.list(all=True)] *)
  users_list_all : result (list (gmap string pyval))
}.

(** Everything outside the program: the servers reachable, the clock, the
    standard library's date parser and printer, the number of CPUs and the
    order in which the futures of a pool complete. *)
Record World : Type := {
  (** [gitlab.Gitlab(url=url, private_token=token)] followed by [gl.auth()] *)
  gitlab_auth : string → string → result Gitlab;
  (** [datetime.datetime.fromisoformat] *)
  fromisoformat : string → result datetime;
  (** [dt.isoformat()] *)
  isoformat : datetime → string;
  (** [os.cpu_count()]: an integer, or [None] *)
  cpu_count : option Z;
  (** the clock when the time window is computed *)
  now_window : wallclock;
  (** the clock when the report is assembled *)
  now_report : wallclock;
  (** [concurrent.futures.as_completed]: each future once, in some order *)
  as_completed : ∀ A : Type, list A → list A;
  as_completed_perm : ∀ (A : Type) (fs : list A), as_completed A fs ≡ₚ fs
}.
Arguments as_completed W {A} fs : rename.

(** [ThreadPoolExecutor(max_workers=n)]. *)
Definition ThreadPoolExecutor (max_workers : Z) : result unit :=
  if max_workers <=? 0
  then Raise (Exn "ValueError" "max_workers must be greater than 0")
  else Ok ().

(** [min(cap, os.cpu_count() * k)]. *)
Definition default_workers (W : World) (cap k : Z) : result Z :=
  match cpu_count W with
  | Some n => Ok (Z.min cap (n * k))
  | None => Raise (Exn "TypeError"
                     "unsupported operand type(s) for *: 'NoneType' and 'int'")
  end.

(** ** The records the pipeline builds *)

Record Project : Type := {
  p_id : pyval;
  p_name : pyval;
  p_path_with_namespace : pyval;
  p_visibility : pyval;
  p_web_url : pyval
}.

Record User : Type := {
  u_id : pyval;
  u_username : pyval;
  u_name : pyval;
  u_email : pyval;
  u_state : pyval
}.

Record CommitRecord : Type := {
  title : pyval;
  message : pyval;
  author_name : pyval;
  author_email : pyval;
  created_at : pyval;
  project_path : pyval;
  diff : list (gmap string pyval)
}.

(** The report: a dictionary with the two keys [metadata] and [commits]. *)
Record Report : Type := {
  metadata : gmap string pyval;
  commits : list CommitRecord
}.

(** ** The pipeline *)

Section Pipeline.
Context (W : World).

(** *** [get_gitlab_client] *)

(** The handler prints and re-raises. With [debug], the user name is
    printed, which reads [current_user.username]. *)
Definition get_gitlab_client (url token : string) (debug : bool)
  : result Gitlab :=
  try_except
    (gl ← gitlab_auth W url token;
     let current_user := gl_user gl in
     _ ← (if debug then getattr current_user "username" else Ok PyNone);
     Ok gl)
    (fun e => Raise e).

(** *** [get_all_projects] *)

(** One element of the comprehension that builds [projects_list]. *)
Definition project_info (project : gmap string pyval) : result Project :=
  id ← getattr project "id";
  name ← getattr project "name";
  path_with_namespace ← getattr project "path_with_namespace";
  let visibility := getattr_default project "visibility" (PyStr "unknown") in
  web_url ← getattr project "web_url";
  Ok {| p_id := id; p_name := name;
        p_path_with_namespace := path_with_namespace;
        p_visibility := visibility; p_web_url := web_url |}.

(** The [while True] loop of the manual pagination, entered with
    [page = 1]; it stops on an empty page or once [page > 100]. *)
Fixpoint projects_pagination (gl : Gitlab) (fuel : nat) (page : Z)
    (projects : list (gmap string pyval))
  : result (list (gmap string pyval)) :=
  match fuel with
  | O => Ok projects
  | S fuel' =>
      batch ← projects_list_page gl page 100;
      match batch with
      | [] => Ok projects
      | _ =>
          let projects := projects ++ batch in
          let page := page + 1 in
          if page >? 100 then Ok projects
          else projects_pagination gl fuel' page projects
      end
  end.

Definition get_all_projects (gl : Gitlab) (debug : bool)
  : result (list Project) :=
  try_except
    (projects ← try_except (projects_list_visibility gl)
                           (fun _ => projects_list_all gl);
     projects ← match projects with
                | [] => projects_pagination gl 100 1 []
                | _ => Ok projects
                end;
     mapM project_info projects)
    (fun _ => Ok []).

(** *** [get_project_commits] *)

(** The test the manual pagination applies to one commit of a batch:
    [true] when the commit is appended. *)
Definition in_window (start_date end_date : datetime)
    (commit : gmap string pyval) : result bool :=
  if hasattr commit "created_at" then
    v ← getattr commit "created_at";
    s ← match v with
        | PyStr s => Ok s
        | _ => Raise (Exn "AttributeError" "replace")
        end;
    commit_date ← fromisoformat W (str_replace_Z s);
    lower ← datetime_le start_date commit_date;
    if (lower : bool) then datetime_le commit_date end_date else Ok false
  else Ok false.

(** [for commit in batch: ...]: the list [commits] after the loop, and
    the exception that ended it early, if any. The commits appended
    before an exception stay in [commits]. *)
Fixpoint filter_batch (start_date end_date : datetime)
    (commits batch : list (gmap string pyval))
  : list (gmap string pyval) * option exn :=
  match batch with
  | [] => (commits, None)
  | commit :: batch' =>
      match in_window start_date end_date commit with
      | Ok true => filter_batch start_date end_date (commits ++ [commit]) batch'
      | Ok false => filter_batch start_date end_date commits batch'
      | Raise e => (commits, Some e)
      end
  end.

(** The manual pagination, entered with [page = 1] and [commits = []]:
    the list [commits] when the [try] block is left, normally or by an
    exception. *)
Fixpoint manual_pagination (project : ProjectHandle)
    (start_date end_date : datetime) (fuel : nat) (page : Z)
    (commits : list (gmap string pyval)) : list (gmap string pyval) :=
  match fuel with
  | O => commits
  | S fuel' =>
      match commits_list_page project page 100 with
      | Raise _ => commits
      | Ok [] => commits
      | Ok batch =>
          match filter_batch start_date end_date commits batch with
          | (commits, Some _) => commits
          | (commits, None) =>
              let page := page + 1 in
              if page >? 10 then commits
              else manual_pagination project start_date end_date fuel'
                     page commits
          end
      end
  end.

(** The three ways of listing the commits of a project, each tried when
    the one before raised. *)
Definition list_commits (project : ProjectHandle)
    (start_date end_date : datetime) : list (gmap string pyval) :=
  let since_str := isoformat W start_date in
  let until_str := isoformat W end_date in
  match commits_list_since_until project since_str until_str with
  | Ok commits => commits
  | Raise _ =>
      match commits_list_since project since_str with
      | Ok commits => commits
      | Raise _ => manual_pagination project start_date end_date 10 1 []
      end
  end.

(** The conversion of [created_at]: the name is assigned the replaced
    string before the parse is tried. *)
Definition normalize_created_at (created_at : pyval) : pyval :=
  match created_at with
  | PyStr s =>
      let created_at := str_replace_Z s in
      match fromisoformat W created_at with
      | Ok dt => PyStr (isoformat W dt)
      | Raise _ => PyStr created_at
      end
  | _ => created_at
  end.

(** The record built for one commit, up to the [append]. *)
Definition commit_data (project : ProjectHandle) (project_info : Project)
    (commit : gmap string pyval) : result CommitRecord :=
  id ← getattr commit "id";
  full_commit ← commits_get project id;
  let diff := match commit_diff full_commit with
              | Ok raw_diff => filter_diff_data raw_diff
              | Raise _ => []
              end in
  created_at ← getattr commit "created_at";
  let created_at := normalize_created_at created_at in
  title ← getattr commit "title";
  message ← getattr commit "message";
  author_name ← getattr commit "author_name";
  author_email ← getattr commit "author_email";
  Ok {| title := title; message := message; author_name := author_name;
        author_email := author_email; created_at := created_at;
        project_path := p_path_with_namespace project_info;
        diff := diff |}.

(** The [try] block of one iteration: [project_commits] after it and the
    exception it raised, if any. With [debug], [commit.short_id] is read
    after the [append]. *)
Definition commit_step (project : ProjectHandle) (project_info : Project)
    (debug : bool) (project_commits : list CommitRecord)
    (commit : gmap string pyval) : list CommitRecord * option exn :=
  match commit_data project project_info commit with
  | Ok data =>
      let project_commits := project_commits ++ [data] in
      if debug then
        match getattr commit "short_id" with
        | Ok _ => (project_commits, None)
        | Raise e => (project_commits, Some e)
        end
      else (project_commits, None)
  | Raise e => (project_commits, Some e)
  end.

(** [for commit in commits: try: ... except Exception as e: ...]. The
    handler prints [commit.id]; when reading it raises, the exception
    leaves the loop. *)
Fixpoint commits_loop (project : ProjectHandle) (project_info : Project)
    (debug : bool) (project_commits : list CommitRecord)
    (commits : list (gmap string pyval)) : list CommitRecord :=
  match commits with
  | [] => project_commits
  | commit :: commits' =>
      match commit_step project project_info debug project_commits commit with
      | (project_commits, None) =>
          commits_loop project project_info debug project_commits commits'
      | (project_commits, Some _) =>
          match getattr commit "id" with
          | Ok _ =>
              commits_loop project project_info debug project_commits commits'
          | Raise _ => project_commits
          end
      end
  end.

Definition get_project_commits (project_info : Project) (gl : Gitlab)
    (start_date end_date : datetime) (debug : bool)
  : result (list CommitRecord) :=
  match projects_get gl (p_id project_info) with
  | Ok project =>
      Ok (commits_loop project project_info debug []
            (list_commits project start_date end_date))
  | Raise _ => Ok []
  end.

(** *** [get_today_commits] *)

(** The date range: [end_date = datetime.now()] and [start_date] the
    midnight of that day moved back by [days - 1] days. *)
Definition commit_window (days : Z) : result (datetime * datetime) :=
  let end_date := datetime_now (now_window W) in
  delta ← timedelta_days (days - 1);
  start_date ← datetime_sub (replace_midnight end_date) delta;
  Ok (start_date, end_date).

(** The loop over the completed futures: the commits of a future whose
    result raises are not added. *)
Definition collect_commits
    (completed : list (result (list CommitRecord) * pyval))
  : list CommitRecord :=
  fold_left (fun all_commits future =>
               match future.1 with
               | Ok project_commits => all_commits ++ project_commits
               | Raise _ => all_commits
               end) completed [].

Definition get_today_commits (gl : Gitlab) (projects : list Project)
    (days : Z) (debug : bool) (threads : Z) : result (list CommitRecord) :=
  '(start_date, end_date) ← commit_window days;
  max_workers ← (if threads <=? 0 then default_workers W 32 4
                 else Ok threads);
  _ ← ThreadPoolExecutor max_workers;
  let future_to_project :=
    map (fun project =>
           (get_project_commits project gl start_date end_date debug,
            p_path_with_namespace project)) projects in
  Ok (collect_commits (as_completed W future_to_project)).

(** *** [get_user_batch], [get_all_users], [_get_all_users_sequential] *)

(** One element of the comprehensions that build the user lists. *)
Definition user_info (user : gmap string pyval) : result User :=
  id ← getattr user "id";
  username ← getattr user "username";
  name ← getattr user "name";
  let email := getattr_default user "email" PyNone in
  let state := getattr_default user "state" (PyStr "unknown") in
  Ok {| u_id := id; u_username := username; u_name := name;
        u_email := email; u_state := state |}.

Definition get_user_batch (gl : Gitlab) (page per_page : Z) (debug : bool)
  : result (list User) :=
  try_except
    (batch ← users_list_page gl page per_page;
     mapM user_info (page_users batch))
    (fun _ => Ok []).

(** The [while True] loop of the sequential fallback, entered with
    [page = 1]: an exception on a page ends the loop and keeps the users
    read so far. *)
Fixpoint users_pagination (gl : Gitlab) (fuel : nat) (page : Z)
    (users : list (gmap string pyval)) : list (gmap string pyval) :=
  match fuel with
  | O => users
  | S fuel' =>
      match users_list_page gl page 100 with
      | Raise _ => users
      | Ok batch =>
          match page_users batch with
          | [] => users
          | batch_users =>
              let users := users ++ batch_users in
              let page := page + 1 in
              if page >? 50 then users
              else users_pagination gl fuel' page users
          end
      end
  end.

Definition _get_all_users_sequential (gl : Gitlab) (debug : bool)
  : result (list User) :=
  try_except
    (let users := match users_list_all gl with
                  | Ok users => users
                  | Raise _ => users_pagination gl 50 1 []
                  end in
     mapM user_info users)
    (fun _ => Ok []).

(** [first_page.total + 99]: defined on integers (and booleans, which
    are integers). *)
Definition total_plus_99 (total : pyval) : result Z :=
  match total with
  | PyInt t => Ok (t + 99)
  | PyBool b => Ok ((if b then 1 else 0) + 99)
  | _ => Raise (Exn "TypeError" "unsupported operand type(s) for +")
  end.

(** The number of pages to fetch, from the first page. *)
Definition users_total_pages (first_page : UserPage) : result Z :=
  match page_total first_page with
  | Some total => n ← total_plus_99 total; Ok (n / 100)
  | None => Ok 20
  end.

(** The futures submitted to the pool, one per page. *)
Definition user_batch_futures (gl : Gitlab) (debug : bool) (total_pages : Z)
  : list (result (list User)) :=
  map (fun page => get_user_batch gl page 100 debug)
      (py_range 1 (total_pages + 1)).

(** The loop over the completed futures. *)
Definition collect_users (completed : list (result (list User)))
  : list User :=
  fold_left (fun all_users future =>
               match future with
               | Ok batch_users => all_users ++ batch_users
               | Raise _ => all_users
               end) completed [].

Definition get_all_users (gl : Gitlab) (debug : bool) (threads : Z)
  : result (list User) :=
  try_except
    (try_except
       (first_page ← users_list_page gl 1 20;
        total_pages ← users_total_pages first_page;
        max_workers ← (if threads <=? 0 then default_workers W 16 2
                       else Ok threads);
        _ ← ThreadPoolExecutor max_workers;
        let futures := user_batch_futures gl debug total_pages in
        let all_users := collect_users (as_completed W futures) in
        match all_users with
        | [] => _get_all_users_sequential gl debug
        | _ => Ok all_users
        end)
       (fun _ => _get_all_users_sequential gl debug))
    (fun _ => Ok []).

(** *** [get_commits_data] *)

(** [len(xs)] as a Python integer. *)
Definition py_len {A : Type} (xs : list A) : pyval :=
  PyInt (Z.of_nat (length xs)).

(** [f"ERROR: An unexpected error occurred: {e}"]. *)
Definition error_message (e : exn) : string :=
  "ERROR: An unexpected error occurred: " +:+ exn_msg e.

(** The [try] block of [get_commits_data]. *)
Definition collect_report (gitlab_url admin_token : string) (days : Z)
    (debug : bool) (threads : Z) : result Report :=
  gl ← get_gitlab_client gitlab_url admin_token debug;
  projects ← get_all_projects gl debug;
  users ← get_all_users gl debug threads;
  commits ← get_today_commits gl projects days debug threads;
  let data :=
    {| metadata := list_to_map
         [ ("date", PyStr (isoformat W (datetime_now (now_report W))));
           ("gitlab_url", PyStr gitlab_url);
           ("days_included", PyInt days);
           ("projects_count", py_len projects);
           ("users_count", py_len users);
           ("commits_count", py_len commits) ];
       commits := commits |} in
  Ok data.

(** The structure the handler returns. *)
Definition error_report (e : exn) : Report :=
  let error_msg := error_message e in
  {| metadata := list_to_map
       [ ("date", PyStr (isoformat W (datetime_now (now_report W))));
         ("error", PyStr error_msg) ];
     commits := [] |}.

Definition get_commits_data (gitlab_url admin_token : string) (days : Z)
    (debug : bool) (threads : Z) : result Report :=
  try_except (collect_report gitlab_url admin_token days debug threads)
             (fun e => Ok (error_report e)).

End Pipeline.

(** ** Vocabulary of the properties *)

(** The [created_at] of a commit is a string that parses to a date within
    [start_date, end_date], bounds included, by the program's own
    comparison. *)
Definition within_window (W : World) (start_date end_date : datetime)
    (commit : gmap string pyval) : Prop :=
  ∃ s commit_date,
    commit !! "created_at" = Some (PyStr s)
    ∧ fromisoformat W (str_replace_Z s) = Ok commit_date
    ∧ datetime_le start_date commit_date = Ok true
    ∧ datetime_le commit_date end_date = Ok true.

(** The commit is on one of the first ten pages of the plain listing. *)
Definition on_first_ten_pages (project : ProjectHandle)
    (commit : gmap string pyval) : Prop :=
  ∃ page batch,
    1 ≤ page ≤ 10
    ∧ commits_list_page project page 100 = Ok batch
    ∧ commit ∈ batch.

(** What the fetch of one project contributes to the aggregate. *)
Definition fetched_commits (W : World) (gl : Gitlab)
    (start_date end_date : datetime) (debug : bool) (project : Project)
  : list CommitRecord :=
  match get_project_commits W project gl start_date end_date debug with
  | Ok project_commits => project_commits
  | Raise _ => []
  end.

(** A worker pool can be created: the number of threads is given, or the
    number of CPUs is known. *)
Definition pool_available (W : World) (threads : Z) : Prop :=
  0 < threads ∨ ∃ n, cpu_count W = Some n ∧ 0 < n.

(** ** A date parser and printer

    [fromisoformat] and [isoformat] are parameters of the [World]. The
    instance below serves the closed examples: the calendar arithmetic of
    the standard library ([_ymd2ord], [_ord2ymd]) and a parser for the
    form [YYYY-MM-DD[*HH[:MM[:SS[.fff[fff]]]][+HH:MM[:SS]]]], which is the
    form [isoformat] prints. *)

Module Iso.

Definition is_leap (year : Z) : bool :=
  (year mod 4 =? 0) && (negb (year mod 100 =? 0) || (year mod 400 =? 0)).

Definition days_before_year (year : Z) : Z :=
  let y := year - 1 in y * 365 + y / 4 - y / 100 + y / 400.

Definition days_in_month (year month : Z) : Z :=
  if month =? 2 then (if is_leap year then 29 else 28)
  else if (month =? 4) || (month =? 6) || (month =? 9) || (month =? 11)
       then 30 else 31.

(** [_DAYS_BEFORE_MONTH[month]], for a year that is not a leap year. *)
Definition DAYS_BEFORE_MONTH (month : Z) : Z :=
  nth (Z.to_nat month)
      [0; 0; 31; 59; 90; 120; 151; 181; 212; 243; 273; 304; 334] 0.

Definition days_before_month (year month : Z) : Z :=
  DAYS_BEFORE_MONTH month
  + (if (month >? 2) && is_leap year then 1 else 0).

Definition ymd2ord (year month day : Z) : Z :=
  days_before_year year + days_before_month year month + day.

Definition ord2ymd (n : Z) : Z * Z * Z :=
  let n := n - 1 in
  let n400 := n / 146097 in let n := n mod 146097 in
  let year := n400 * 400 + 1 in
  let n100 := n / 36524 in let n := n mod 36524 in
  let n4 := n / 1461 in let n := n mod 1461 in
  let n1 := n / 365 in let n := n mod 365 in
  let year := year + n100 * 100 + n4 * 4 + n1 in
  if (n1 =? 4) || (n100 =? 4) then (year - 1, 12, 31)
  else
    let leapyear := (n1 =? 3) && (negb (n4 =? 24) || (n100 =? 3)) in
    let month := Z.shiftr (n + 50) 5 in
    let preceding := DAYS_BEFORE_MONTH month
                     + (if (month >? 2) && leapyear then 1 else 0) in
    if preceding >? n then
      let month := month - 1 in
      let preceding :=
        preceding - (days_in_month 1 month
                     + (if (month =? 2) && leapyear then 1 else 0)) in
      (year, month, n - preceding + 1)
    else (year, month, n - preceding + 1).

(** *** Printing *)

Definition digit (d : Z) : string :=
  String (ascii_of_nat (48 + Z.to_nat (d mod 10))) EmptyString.

Definition pad2 (n : Z) : string := digit (n / 10) +:+ digit n.
Definition pad4 (n : Z) : string := pad2 (n / 100) +:+ pad2 (n mod 100).
Definition pad6 (n : Z) : string := pad4 (n / 100) +:+ pad2 (n mod 100).

Definition format_offset (off : Z) : string :=
  let sign := if off <? 0 then "-" else "+" in
  let a := Z.abs off in
  sign +:+ pad2 (a / 3600) +:+ ":" +:+ pad2 (a / 60 mod 60)
  +:+ (if a mod 60 =? 0 then "" else ":" +:+ pad2 (a mod 60)).

Definition isoformat (dt : datetime) : string :=
  let '(year, month, day) := ord2ymd (dt_ordinal dt) in
  pad4 year +:+ "-" +:+ pad2 month +:+ "-" +:+ pad2 day +:+ "T"
  +:+ pad2 (dt_hour dt) +:+ ":" +:+ pad2 (dt_minute dt) +:+ ":"
  +:+ pad2 (dt_second dt)
  +:+ (if dt_microsecond dt =? 0 then ""
       else "." +:+ pad6 (dt_microsecond dt))
  +:+ match dt_utcoffset dt with
      | Some off => format_offset off
      | None => ""
      end.

(** *** Parsing *)

Definition digit_value (c : ascii) : option Z :=
  let n := Z.of_nat (nat_of_ascii c) in
  if (48 <=? n) && (n <=? 57) then Some (n - 48) else None.

Fixpoint digits_value (acc : Z) (s : string) : option Z :=
  match s with
  | EmptyString => Some acc
  | String c s' =>
      match digit_value c with
      | Some d => digits_value (acc * 10 + d) s'
      | None => None
      end
  end.

(** [int(s)] on a non-empty string of decimal digits. *)
Definition parse_int (s : string) : option Z :=
  match s with
  | EmptyString => None
  | _ => digits_value 0 s
  end.

(** [s[lo:hi]]. *)
Definition slice (s : string) (lo hi : nat) : string :=
  String.substring lo (hi - lo) s.

Definition char_at (s : string) (i : nat) : option ascii := String.get i s.

(** [_parse_isoformat_date] on the first ten characters. *)
Definition parse_date (dstr : string) : option (Z * Z * Z) :=
  match parse_int (slice dstr 0 4), char_at dstr 4,
        parse_int (slice dstr 5 7), char_at dstr 7,
        parse_int (slice dstr 8 10) with
  | Some year, Some "-"%char, Some month, Some "-"%char, Some day =>
      if (String.length dstr =? 10)%nat then Some (year, month, day)
      else None
  | _, _, _, _, _ => None
  end.

(** [_parse_hh_mm_ss_ff]: [HH[:MM[:SS[.fff[fff]]]]]. *)
Definition parse_hh_mm_ss_ff (tstr : string) : option (Z * Z * Z * Z) :=
  let len := String.length tstr in
  let frac (pos : nat) : option Z :=
    if (pos =? len)%nat then Some 0
    else match char_at tstr pos with
         | Some "."%char =>
             let rest := slice tstr (S pos) len in
             match String.length rest, parse_int rest with
             | 3%nat, Some f => Some (f * 1000)
             | 6%nat, Some f => Some f
             | _, _ => None
             end
         | _ => None
         end in
  match parse_int (slice tstr 0 2) with
  | Some hh =>
      if (len =? 2)%nat then Some (hh, 0, 0, 0)
      else match char_at tstr 2, parse_int (slice tstr 3 5) with
           | Some ":"%char, Some mm =>
               if (len =? 5)%nat then Some (hh, mm, 0, 0)
               else match char_at tstr 5, parse_int (slice tstr 6 8) with
                    | Some ":"%char, Some ss =>
                        match frac 8%nat with
                        | Some ff => Some (hh, mm, ss, ff)
                        | None => None
                        end
                    | _, _ => None
                    end
           | _, _ => None
           end
  | None => None
  end.

(** The position of the first [-], or else of the first [+]. *)
Fixpoint find_char (c : ascii) (s : string) : option nat :=
  match s with
  | EmptyString => None
  | String c' s' =>
      if Ascii.eqb c c' then Some O else S <$> find_char c s'
  end.

Definition tz_position (tstr : string) : option nat :=
  match find_char "-" tstr with
  | Some i => Some i
  | None => find_char "+" tstr
  end.

(** [_parse_isoformat_time]: the time of day and the offset in seconds. *)
Definition parse_time (tstr : string)
  : option (Z * Z * Z * Z * option Z) :=
  match tz_position tstr with
  | None => t ← parse_hh_mm_ss_ff tstr; Some (t, None)
  | Some i =>
      let tzstr := slice tstr (S i) (String.length tstr) in
      t ← parse_hh_mm_ss_ff (slice tstr 0 i);
      '(h, m, s, f) ← parse_hh_mm_ss_ff tzstr;
      if ((String.length tzstr =? 5)%nat || (String.length tzstr =? 8)%nat)
         && (f =? 0)
      then
        let sign := if char_at tstr i is Some "-"%char then -1 else 1 in
        Some (t, Some (sign * (h * 3600 + m * 60 + s)))
      else None
  end.

(** The range checks of the [datetime] and [timezone] constructors. *)
Definition fields_valid (year month day hh mm ss ff : Z) (tz : option Z)
  : bool :=
  (1 <=? year) && (year <=? 9999) && (1 <=? month) && (month <=? 12)
  && (1 <=? day) && (day <=? days_in_month year month)
  && (0 <=? hh) && (hh <=? 23) && (0 <=? mm) && (mm <=? 59)
  && (0 <=? ss) && (ss <=? 59) && (0 <=? ff) && (ff <=? 999999)
  && match tz with
     | Some off => (-86400 <? off) && (off <? 86400)
     | None => true
     end.

Definition fromisoformat (date_string : string) : result datetime :=
  let invalid :=
    Raise (Exn "ValueError" ("Invalid isoformat string: " +:+ date_string)) in
  let dstr := slice date_string 0 10 in
  let tstr := slice date_string 11 (String.length date_string) in
  match parse_date dstr,
        (match tstr with
         | EmptyString => Some (0, 0, 0, 0, None)
         | _ => parse_time tstr
         end) with
  | Some (year, month, day), Some (hh, mm, ss, ff, tz) =>
      if fields_valid year month day hh mm ss ff tz
      then Ok {| dt_ordinal := ymd2ord year month day; dt_hour := hh;
                 dt_minute := mm; dt_second := ss; dt_microsecond := ff;
                 dt_utcoffset := tz |}
      else invalid
  | _, _ => invalid
  end.

(** Whether a string ends with an offset [+HH:MM] or [-HH:MM]. *)
Definition ends_with_utc_offset (s : string) : bool :=
  let n := String.length s in
  match char_at s (n - 6), parse_int (slice s (n - 5) (n - 3)),
        char_at s (n - 3), parse_int (slice s (n - 2) n) with
  | Some c, Some _, Some ":"%char, Some _ =>
      (6 <=? n)%nat && (Ascii.eqb c "+" || Ascii.eqb c "-")
  | _, _, _, _ => false
  end.

End Iso.

(** ** A small world for the closed examples

    One server with three projects and three users. Project 1 answers the
    listing with both bounds; project 2 cannot be fetched at all; project 3
    refuses both filtered listings, so its commits come from the manual
    pagination. The futures complete in the reverse of the order of their
    submission. *)

Module Mock.

Definition obj (fields : list (string * pyval)) : gmap string pyval :=
  list_to_map fields.

Definition commit (id created : string) (subject : string)
  : gmap string pyval :=
  obj [ ("id", PyStr id); ("short_id", PyStr id); ("title", PyStr subject);
        ("message", PyStr subject); ("author_name", PyStr "Ada");
        ("author_email", PyStr "ada@example.com");
        ("created_at", PyStr created) ].

Definition commit_a1 := commit "a1" "2025-06-15T09:12:44.000+02:00" "Add parser".
Definition commit_a2 := commit "a2" "2025-06-15T10:01:00Z" "Fix typo".
Definition commit_c1 := commit "c1" "2025-06-15T08:00:00" "Bump version".
Definition commit_c2 := commit "c2" "2025-06-10T08:00:00" "Old work".
Definition commit_c4 := commit "c4" "2025-02-30T08:00:00Z" "Broken clock".
Definition commit_c3 : gmap string pyval :=
  obj [ ("id", PyStr "c3"); ("title", PyStr "No date") ].

Definition raw_diff_a1 : list (gmap string pyval) :=
  [ obj [ ("old_path", PyStr "src/parser.py");
          ("new_path", PyStr "src/parser.py"); ("a_mode", PyStr "0");
          ("b_mode", PyStr "100644"); ("new_file", PyBool true);
          ("renamed_file", PyBool false); ("deleted_file", PyBool false);
          ("diff", PyStr "@@ -0,0 +1 @@") ];
    obj [ ("new_path", PyStr "README.md"); ("diff", PyStr "@@ -1 +1 @@") ] ].

Definition server_error : exn :=
  Exn "GitlabHttpError" "500: Internal Server Error".

Definition unavailable {A : Type} : result A := Raise server_error.

Definition project_a : ProjectHandle :=
  {| commits_list_since_until := fun _ _ => Ok [commit_a1; commit_a2];
     commits_list_since := fun _ => Ok [commit_a1; commit_a2];
     commits_list_page := fun page _ =>
       if page =? 1 then Ok [commit_a1; commit_a2] else Ok [];
     commits_get := fun id =>
       match id with
       | PyStr "a1" => Ok {| commit_diff := Ok raw_diff_a1 |}
       | PyStr "a2" => Ok {| commit_diff := unavailable |}
       | _ => Raise (Exn "GitlabGetError" "404: Commit Not Found")
       end |}.

Definition project_c : ProjectHandle :=
  {| commits_list_since_until := fun _ _ => unavailable;
     commits_list_since := fun _ => unavailable;
     commits_list_page := fun page _ =>
       if page =? 1 then Ok [commit_c1; commit_c2; commit_c3] else Ok [];
     commits_get := fun _ => Ok {| commit_diff := Ok [] |} |}.

Definition project_obj (id : Z) (path : string) : gmap string pyval :=
  obj [ ("id", PyInt id); ("name", PyStr path);
        ("path_with_namespace", PyStr ("team/" +:+ path));
        ("visibility", PyStr "private");
        ("web_url", PyStr ("https://gitlab.example.com/team/" +:+ path)) ].

Definition info (id : Z) (path : string) : Project :=
  {| p_id := PyInt id; p_name := PyStr path;
     p_path_with_namespace := PyStr ("team/" +:+ path);
     p_visibility := PyStr "private";
     p_web_url := PyStr ("https://gitlab.example.com/team/" +:+ path) |}.

Definition user_obj (id : Z) (username : string) : gmap string pyval :=
  obj [ ("id", PyInt id); ("username", PyStr username);
        ("name", PyStr username); ("state", PyStr "active") ].

Definition first_page : UserPage :=
  {| page_users := [user_obj 1 "ada"; user_obj 2 "grace"];
     page_total := Some (PyInt 250) |}.

Definition gl : Gitlab :=
  {| gl_user := obj [ ("username", PyStr "root"); ("is_admin", PyBool true) ];
     projects_list_visibility :=
       Ok [project_obj 1 "alpha"; project_obj 2 "beta"; project_obj 3 "gamma"];
     projects_list_all :=
       Ok [project_obj 1 "alpha"; project_obj 2 "beta"; project_obj 3 "gamma"];
     projects_list_page := fun _ _ => Ok [];
     projects_get := fun id =>
       match id with
       | PyInt 1 => Ok project_a
       | PyInt 3 => Ok project_c
       | _ => Raise (Exn "ConnectionError" "connection reset by peer")
       end;
     users_list_page := fun page per_page =>
       if per_page =? 20 then Ok first_page
       else if page =? 1 then
         Ok {| page_users := [user_obj 1 "ada"; user_obj 2 "grace"];
               page_total := None |}
       else if page =? 2 then
         Ok {| page_users := [user_obj 3 "edsger"]; page_total := None |}
       else Ok {| page_users := []; page_total := None |};
     users_list_all :=
       Ok [user_obj 1 "ada"; user_obj 2 "grace"; user_obj 3 "edsger"] |}.

Definition world : World :=
  {| gitlab_auth := fun url token =>
       if String.eqb token "glpat-admin" then Ok gl
       else Raise (Exn "GitlabAuthenticationError" "401: 401 Unauthorized");
     fromisoformat := Iso.fromisoformat;
     isoformat := Iso.isoformat;
     cpu_count := Some 4;
     now_window := {| wc_ordinal := Iso.ymd2ord 2025 6 15; wc_hour := 14;
                      wc_minute := 30; wc_second := 5;
                      wc_microsecond := 250000 |};
     now_report := {| wc_ordinal := Iso.ymd2ord 2025 6 15; wc_hour := 14;
                      wc_minute := 30; wc_second := 9;
                      wc_microsecond := 125000 |};
     as_completed := fun A fs => reverse fs;
     as_completed_perm := fun A fs => reverse_Permutation fs |}.

Definition url : string := "https://gitlab.example.com".

(** The report expected of a run on 2025-06-15 with [days = 1]. *)
Definition record (subject created path : string)
    (entries : list (gmap string pyval)) : CommitRecord :=
  {| title := PyStr subject; message := PyStr subject;
     author_name := PyStr "Ada"; author_email := PyStr "ada@example.com";
     created_at := PyStr created; project_path := PyStr path;
     diff := entries |}.

Definition report : Report :=
  {| metadata := obj
       [ ("date", PyStr "2025-06-15T14:30:09.125000");
         ("gitlab_url", PyStr url); ("days_included", PyInt 1);
         ("projects_count", PyInt 3); ("users_count", PyInt 3);
         ("commits_count", PyInt 3) ];
     commits :=
       [ record "Bump version" "2025-06-15T08:00:00" "team/gamma" [];
         record "Add parser" "2025-06-15T09:12:44+02:00" "team/alpha"
           [ obj [ ("new_path", PyStr "src/parser.py");
                   ("old_path", PyStr "src/parser.py");
                   ("new_file", PyBool true) ];
             obj [ ("new_path", PyStr "README.md");
                   ("old_path", PyStr "") ] ];
         record "Fix typo" "2025-06-15T10:01:00+00:00" "team/alpha" [] ] |}.

Definition auth_error : exn :=
  Exn "GitlabAuthenticationError" "401: 401 Unauthorized".

End Mock.

(** ** Writing the report

    [save_to_txt], [save_to_json] and [main] of [gitlab_commits.py], and the
    two endpoints of [api.py]. What a file holds is the list of the strings
    written to it, in order. The built-in functions they call are
    parameters. *)

Record Builtins : Type := {
  (** [str(v)], which is also what [f"{v}"] prints *)
  py_str : pyval → string;
  (** [a != b] *)
  py_ne : pyval → pyval → bool;
  (** the text [json.dump(data, f, ensure_ascii=False, indent=2)] writes *)
  json_dumps : Report → string;
  (** [os.path.splitext(path)[0]] *)
  splitext_root : string → string;
  (** [open(path, 'w', encoding='utf-8')] *)
  file_open : string → result unit;
  (** [str(HTTPException(status_code=s, detail=d))] *)
  http_exception_str : Z → pyval → string
}.

(** The truth value of a Python value. *)
Definition py_truthy (v : pyval) : bool :=
  match v with
  | PyNone => false
  | PyBool b => b
  | PyInt z => negb (z =? 0)
  | PyStr s => match s with EmptyString => false | _ => true end
  | PyList l => match l with [] => false | _ => true end
  | PyDict d => negb (bool_decide (size d = 0%nat))
  end.

(** [d[key]]. *)
Definition dict_item (d : gmap string pyval) (key : string) : result pyval :=
  match d !! key with
  | Some v => Ok v
  | None => Raise (Exn "KeyError" ("'" +:+ key +:+ "'"))
  end.

(** [s.endswith(suffix)]. *)
Definition str_endswith (s suffix : string) : bool :=
  let n := String.length s in
  let k := String.length suffix in
  (k <=? n)%nat && String.eqb (String.substring (n - k) k s) suffix.

(** The line feed. *)
Definition nl : string := String "010"%char EmptyString.

(** A computation that writes to the open file: from the strings written
    so far to its result and the strings written after it. An exception
    leaves what was written before it. *)
Definition file_io (A : Type) : Type := list string → result A * list string.

#[global] Instance file_io_ret : MRet file_io := fun A a out => (Ok a, out).
#[global] Instance file_io_bind : MBind file_io := fun A B k c out =>
  match c out with
  | (Ok a, out') => k a out'
  | (Raise e, out') => (Raise e, out')
  end.

(** [f.write(s)]. *)
Definition f_write (s : string) : file_io unit :=
  fun out => (Ok (), out ++ [s]).

(** A computation that does not write. *)
Definition io_lift {A : Type} (c : result A) : file_io A :=
  fun out => (c, out).

(** [for x in xs: body]. *)
Fixpoint io_for {A : Type} (body : A → file_io unit) (xs : list A)
  : file_io unit :=
  match xs with
  | [] => mret ()
  | x :: xs' => _ ← body x; io_for body xs'
  end.

(** [enumerate(xs, start)]. *)
Fixpoint enumerate {A : Type} (xs : list A) (start : Z) : list (Z * A) :=
  match xs with
  | [] => []
  | x :: xs' => (start, x) :: enumerate xs' (start + 1)
  end.

Inductive Format : Type := txt | json.

(** The arguments [parse_args] returns. *)
Record Args : Type := {
  args_url : string;
  args_admin_token : string;
  args_output : string;
  args_days : Z;
  args_debug : bool;
  args_threads : Z;
  args_format : Format
}.

(** What an endpoint does: it returns the report, or raises
    [HTTPException(status_code, detail)]. *)
Inductive http_outcome : Type :=
  | Respond (result : Report)
  | HTTPException (status_code : Z) (detail : string).

Section Output.
Context (B : Builtins).

(** The lines written for one entry of a diff. *)
Definition write_diff_item (diff_item : gmap string pyval) : file_io unit :=
  if py_truthy (dict_get diff_item "new_file" (PyBool false)) then
    new_path ← io_lift (dict_item diff_item "new_path");
    f_write ("  New file: " +:+ py_str B new_path +:+ nl)
  else
    new_path ← io_lift (dict_item diff_item "new_path");
    _ ← f_write ("  Modified: " +:+ py_str B new_path +:+ nl);
    renamed ← io_lift
      (if py_truthy (dict_get diff_item "old_path" PyNone) then
         old_path ← dict_item diff_item "old_path";
         new_path ← dict_item diff_item "new_path";
         Ok (py_ne B old_path new_path)
       else Ok false);
    if (renamed : bool) then
      old_path ← io_lift (dict_item diff_item "old_path");
      f_write ("    (renamed from: " +:+ py_str B old_path +:+ ")" +:+ nl)
    else mret ().

(** The block written for the commit numbered [i]. *)
Definition write_commit (numbered : Z * CommitRecord) : file_io unit :=
  let '(i, commit) := numbered in
  _ ← f_write ("Commit #" +:+ py_str B (PyInt i) +:+ nl);
  _ ← f_write ("Project: " +:+ py_str B (project_path commit) +:+ nl);
  _ ← f_write ("Title: " +:+ py_str B (title commit) +:+ nl);
  _ ← f_write ("Author: " +:+ py_str B (author_name commit) +:+ " <"
               +:+ py_str B (author_email commit) +:+ ">" +:+ nl);
  _ ← f_write ("Date: " +:+ py_str B (created_at commit) +:+ nl);
  _ ← f_write ("Message:" +:+ py_str B (message commit) +:+ nl);
  _ ← match diff commit with
      | [] => f_write ("No diff information available." +:+ nl)
      | entries =>
          _ ← f_write ("Changes:" +:+ nl);
          io_for write_diff_item entries
      end;
  f_write (nl +:+ "---" +:+ nl +:+ nl).

(** One line of the metadata section. *)
Definition write_metadata (data : Report) (label key : string)
  : file_io unit :=
  v ← io_lift (dict_item (metadata data) key);
  f_write (label +:+ py_str B v +:+ nl).

(** What [save_to_txt] does once the file is open. *)
Definition write_report (data : Report) : file_io unit :=
  _ ← f_write ("=== GITLAB COMMITS REPORT ===" +:+ nl);
  _ ← write_metadata data "Generated: " "date";
  _ ← write_metadata data "GitLab URL: " "gitlab_url";
  _ ← write_metadata data "Days included: " "days_included";
  _ ← write_metadata data "Projects count: " "projects_count";
  _ ← write_metadata data "Users count: " "users_count";
  _ ← write_metadata data "Commits count: " "commits_count";
  _ ← f_write ("=== COMMITS ===" +:+ nl);
  match commits data with
  | [] => f_write ("No commits found in the specified time range." +:+ nl)
  | _ => io_for write_commit (enumerate (commits data) 1)
  end.

(** [save_to_txt(data, output_file)]: whether it returns or raises (the
    handler prints and raises again), and what the file holds. *)
Definition save_to_txt (data : Report) (output_file : string)
  : result unit * list string :=
  match file_open B output_file with
  | Ok _ => write_report data []
  | Raise e => (Raise e, [])
  end.

(** [save_to_json(data, output_file)]. *)
Definition save_to_json (data : Report) (output_file : string)
  : result unit * list string :=
  match file_open B output_file with
  | Ok _ => f_write (json_dumps B data) []
  | Raise e => (Raise e, [])
  end.

(** The name of the file [main] writes. *)
Definition output_file (args : Args) : string :=
  match args_format args with
  | json =>
      if str_endswith (args_output args) ".json" then args_output args
      else splitext_root B (args_output args) +:+ ".json"
  | txt => args_output args
  end.

(** [main()], after [parse_args]: the name of the file, whether [main]
    returns or raises, and what the file holds. *)
Definition main (W : World) (args : Args)
  : string * (result unit * list string) :=
  match get_commits_data W (args_url args) (args_admin_token args)
          (args_days args) (args_debug args) (args_threads args) with
  | Ok data =>
      (output_file args,
       match args_format args with
       | json => save_to_json data (output_file args)
       | txt => save_to_txt data (output_file args)
       end)
  | Raise e => (output_file args, (Raise e, []))
  end.

(** The body shared by the two endpoints of [api.py]: an
    [HTTPException] raised in the [try] block is caught by its own
    [except Exception] and raised again with its text as detail. *)
Definition respond (W : World) (gitlab_url admin_token : string) (days : Z)
    (debug : bool) (threads : Z) : http_outcome :=
  match
    (result ← get_commits_data W gitlab_url admin_token days debug threads;
     match metadata result !! "error" with
     | Some error => Raise (Exn "HTTPException" (http_exception_str B 500 error))
     | None => Ok result
     end)
  with
  | Ok result => Respond result
  | Raise e => HTTPException 500 (exn_msg e)
  end.

(** [POST /api/commits]. *)
Definition get_commits (W : World) (gitlab_url admin_token : string)
    (days : Z) (debug : bool) (threads : Z) : http_outcome :=
  respond W gitlab_url admin_token days debug threads.

(** [GET /api/commits], with the token in the header [X-GitLab-Token]. *)
Definition get_commits_by_get (W : World) (gitlab_url : string) (days : Z)
    (debug : bool) (threads : Z) (x_gitlab_token : string) : http_outcome :=
  respond W gitlab_url x_gitlab_token days debug threads.

End Output.

(** ** Vocabulary of the further properties *)

(** A listed project has the four attributes the projection reads. *)
Definition project_complete (project : gmap string pyval) : bool :=
  hasattr project "id" && hasattr project "name"
  && hasattr project "path_with_namespace" && hasattr project "web_url".

(** [info] is the projection of the listed [project]. *)
Definition projects_as (project : gmap string pyval) (info : Project) : Prop :=
  project !! "id" = Some (p_id info)
  ∧ project !! "name" = Some (p_name info)
  ∧ project !! "path_with_namespace" = Some (p_path_with_namespace info)
  ∧ p_visibility info = default (PyStr "unknown") (project !! "visibility")
  ∧ project !! "web_url" = Some (p_web_url info).

(** A listed user has the three attributes the projection reads. *)
Definition user_complete (user : gmap string pyval) : bool :=
  hasattr user "id" && hasattr user "username" && hasattr user "name".

(** [info] is the projection of the listed [user]. *)
Definition users_as (user : gmap string pyval) (info : User) : Prop :=
  user !! "id" = Some (u_id info)
  ∧ user !! "username" = Some (u_username info)
  ∧ user !! "name" = Some (u_name info)
  ∧ u_email info = default PyNone (user !! "email")
  ∧ u_state info = default (PyStr "unknown") (user !! "state").

(** The items of the pages 1 to [k] of a paginated listing, in order. *)
Definition first_pages {A : Type} (page_items : Z → list A) (k : nat)
  : list A :=
  flat_map (fun i => page_items (Z.of_nat i + 1)) (seq 0 k).

(** The projects on page [page] of the plain listing, when it is served. *)
Definition project_page (gl : Gitlab) (page : Z) : list (gmap string pyval) :=
  match projects_list_page gl page 100 with
  | Ok batch => batch
  | Raise _ => []
  end.

(** The users on page [page] of the plain listing, when it is served. *)
Definition user_page (gl : Gitlab) (page : Z) : list (gmap string pyval) :=
  match users_list_page gl page 100 with
  | Ok batch => page_users batch
  | Raise _ => []
  end.

(** The records of the commits for which the record can be built. *)
Definition recorded (W : World) (project : ProjectHandle) (info : Project)
    (commits : list (gmap string pyval)) : list CommitRecord :=
  flat_map (fun commit => match commit_data W project info commit with
                          | Ok data => [data]
                          | Raise _ => []
                          end) commits.

(** A clock reading with its fields in range. *)
Definition wallclock_valid (t : wallclock) : Prop :=
  1 ≤ wc_ordinal t ≤ MAXORDINAL
  ∧ 0 ≤ wc_hour t < 24 ∧ 0 ≤ wc_minute t < 60 ∧ 0 ≤ wc_second t < 60
  ∧ 0 ≤ wc_microsecond t < 1000000.

(** ** A server that only serves the paginated listings

    The bulk listing of the projects with the visibility filter is
    refused and the one without returns nothing; the bulk listing of the
    users is refused. Projects and users come in pages of two, one and no
    item; the page [broken] cannot be read. *)

Module Paged.

Definition gl (broken : Z) : Gitlab :=
  {| gl_user := Mock.obj [ ("username", PyStr "root") ];
     projects_list_visibility := Mock.unavailable;
     projects_list_all := Ok [];
     projects_list_page := fun page _ =>
       if page =? broken then Mock.unavailable
       else if page =? 1
            then Ok [Mock.project_obj 1 "alpha"; Mock.project_obj 2 "beta"]
       else if page =? 2 then Ok [Mock.project_obj 3 "gamma"]
       else Ok [];
     projects_get := fun _ => Mock.unavailable;
     users_list_page := fun page _ =>
       if page =? broken then Mock.unavailable
       else if page =? 1 then
         Ok {| page_users := [Mock.user_obj 1 "ada"; Mock.user_obj 2 "grace"];
               page_total := None |}
       else if page =? 2 then
         Ok {| page_users := [Mock.user_obj 3 "edsger"]; page_total := None |}
       else Ok {| page_users := []; page_total := None |};
     users_list_all := Mock.unavailable |}.

End Paged.

(** ** A project with a commit that has no [id]

    The listing of the project returns three commits; the second one has
    no attribute [id]. *)

Module Partial.

Definition commit_without_id : gmap string pyval :=
  Mock.obj [ ("title", PyStr "Detached"); ("message", PyStr "Detached");
             ("author_name", PyStr "Ada");
             ("author_email", PyStr "ada@example.com");
             ("created_at", PyStr "2025-06-15T09:30:00Z") ].

Definition project (listed : list (gmap string pyval)) : ProjectHandle :=
  {| commits_list_since_until := fun _ _ => Ok listed;
     commits_list_since := fun _ => Ok listed;
     commits_list_page := fun _ _ => Ok [];
     commits_get := fun _ => Ok {| commit_diff := Mock.unavailable |} |}.

Definition gl (listed : list (gmap string pyval)) : Gitlab :=
  {| gl_user := Mock.obj [ ("username", PyStr "root") ];
     projects_list_visibility := Ok [Mock.project_obj 1 "alpha"];
     projects_list_all := Ok [Mock.project_obj 1 "alpha"];
     projects_list_page := fun _ _ => Ok [];
     projects_get := fun _ => Ok (project listed);
     users_list_page := fun _ _ => Mock.unavailable;
     users_list_all := Ok [] |}.

Definition today_start : datetime :=
  replace_midnight (datetime_now (now_window Mock.world)).

Definition today_end : datetime := datetime_now (now_window Mock.world).

End Partial.

(** ** Variants of the small world *)

Module Variants.

(** The same world on a machine whose number of CPUs is unknown. *)
Definition headless : World :=
  {| gitlab_auth := gitlab_auth Mock.world;
     fromisoformat := Iso.fromisoformat;
     isoformat := Iso.isoformat;
     cpu_count := None;
     now_window := now_window Mock.world;
     now_report := now_report Mock.world;
     as_completed := fun A fs => reverse fs;
     as_completed_perm := fun A fs => reverse_Permutation fs |}.

(** The same server, whose current user has no [username]. *)
Definition anonymous_gl : Gitlab :=
  {| gl_user := Mock.obj [ ("is_admin", PyBool true) ];
     projects_list_visibility := projects_list_visibility Mock.gl;
     projects_list_all := projects_list_all Mock.gl;
     projects_list_page := projects_list_page Mock.gl;
     projects_get := projects_get Mock.gl;
     users_list_page := users_list_page Mock.gl;
     users_list_all := users_list_all Mock.gl |}.

Definition anonymous : World :=
  {| gitlab_auth := fun _ _ => Ok anonymous_gl;
     fromisoformat := Iso.fromisoformat;
     isoformat := Iso.isoformat;
     cpu_count := Some 4;
     now_window := now_window Mock.world;
     now_report := now_report Mock.world;
     as_completed := fun A fs => reverse fs;
     as_completed_perm := fun A fs => reverse_Permutation fs |}.


(** A server whose second page of projects cannot be read. *)
Definition broken_pages : World :=
  {| gitlab_auth := fun _ _ => Ok (Paged.gl 2);
     fromisoformat := Iso.fromisoformat;
     isoformat := Iso.isoformat;
     cpu_count := Some 4;
     now_window := now_window Mock.world;
     now_report := now_report Mock.world;
     as_completed := fun A fs => reverse fs;
     as_completed_perm := fun A fs => reverse_Permutation fs |}.

(** A project that refuses both filtered listings and whose first page
    starts with a commit dated with a UTC offset. *)
Definition offset_project : ProjectHandle :=
  {| commits_list_since_until := fun _ _ => Mock.unavailable;
     commits_list_since := fun _ => Mock.unavailable;
     commits_list_page := fun page _ =>
       if page =? 1 then Ok [Mock.commit_a1; Mock.commit_c1] else Ok [];
     commits_get := fun _ => Ok {| commit_diff := Ok [] |} |}.

Definition offset_gl : Gitlab :=
  {| gl_user := Mock.obj [ ("username", PyStr "root") ];
     projects_list_visibility := Ok [Mock.project_obj 1 "alpha"];
     projects_list_all := Ok [Mock.project_obj 1 "alpha"];
     projects_list_page := fun _ _ => Ok [];
     projects_get := fun _ => Ok offset_project;
     users_list_page := fun _ _ => Mock.unavailable;
     users_list_all := Ok [] |}.

End Variants.

(** A computation that returns [()] having only added to the file. *)
Definition appends (c : file_io unit) : Prop :=
  ∀ out, ∃ more, c out = (Ok (), out ++ more).

(** A computation that raises whatever the file holds. *)
Definition fails (c : file_io unit) : Prop :=
  ∀ out, is_ok (c out).1 = false.

(** The keys of the metadata [save_to_txt] reads. *)
Definition report_keys : list string :=
  [ "date"; "gitlab_url"; "days_included"; "projects_count"; "users_count";
    "commits_count" ].

(** What [save_to_txt] needs of a report: the six keys of the metadata and
    a [new_path] in every entry of every diff. *)
Definition printable (data : Report) : Prop :=
  Forall (fun key => is_Some (metadata data !! key)) report_keys
  ∧ Forall (fun commit =>
              Forall (fun entry : gmap string pyval =>
                        is_Some (entry !! "new_path")) (diff commit))
           (commits data).

(** Built-in functions for the closed examples, on the values that occur
    in them: strings print as themselves, any other value as [?], two
    values differ unless they are equal strings, every file can be opened
    and the extension dropped from a file name has three letters. *)
Module Plain.

Definition builtins : Builtins :=
  {| py_str := fun v => match v with PyStr s => s | _ => "?" end;
     py_ne := fun a b =>
       match a, b with
       | PyStr s, PyStr t => negb (String.eqb s t)
       | _, _ => true
       end;
     json_dumps := fun _ => "{}";
     splitext_root := fun path =>
       String.substring 0 (String.length path - 4) path;
     file_open := fun _ => Ok ();
     http_exception_str := fun _ detail =>
       match detail with PyStr s => "500: " +:+ s | _ => "500: ?" end |}.

Definition args (token : string) (format : Format) : Args :=
  {| args_url := Mock.url; args_admin_token := token;
     args_output := "gitlab_commits.txt"; args_days := 1;
     args_debug := false; args_threads := 0; args_format := format |}.

End Plain.

(** * Properties *)

(** ** The [result] monad *)

Lemma bind_Ok {A B : Type} (c : result A) (k : A → result B) (b : B) :
  c ≫= k = Ok b ↔ ∃ a, c = Ok a ∧ k a = Ok b.
Proof.
  destruct c as [a|e]; simpl; split.
  - intros H. by exists a.
  - by intros (a' & [= <-] & H).
  - discriminate.
  - by intros (a' & [=] & _).
Qed.

Lemma bind_Raise {A B : Type} (c : result A) (k : A → result B) (e : exn) :
  c ≫= k = Raise e ↔ c = Raise e ∨ ∃ a, c = Ok a ∧ k a = Raise e.
Proof.
  destruct c as [a|e']; simpl; split.
  - intros H. right. by exists a.
  - intros [[=]|(a' & [= <-] & H)]. done.
  - intros [= <-]. by left.
  - intros [[= <-]|(a' & [=] & _)]. done.
Qed.

(** A handler that returns makes the whole statement return. *)
Lemma try_except_returns {A : Type} (body : result A) (handler : exn → A) :
  ∃ a, try_except body (fun e => Ok (handler e)) = Ok a.
Proof. destruct body as [a|e]; simpl; eauto. Qed.

(** ** [filter_diff_data] *)

Lemma fold_left_append_map {A B : Type} (f : A → B) (xs : list A)
    (acc : list B) :
  fold_left (fun acc x => acc ++ [f x]) xs acc = acc ++ map f xs.
Proof.
  revert acc. induction xs as [|x xs IH]; intros acc; simpl.
  - by rewrite app_nil_r.
  - rewrite IH. by rewrite <- app_assoc.
Qed.

Lemma filter_diff_data_map (diff : list (gmap string pyval)) :
  filter_diff_data diff = map filter_diff_item diff.
Proof. unfold filter_diff_data. by rewrite fold_left_append_map. Qed.

Lemma filter_diff_item_lookup (diff_item : gmap string pyval) (k : string) :
  filter_diff_item diff_item !! k =
    if decide (k = "new_file") then diff_item !! "new_file"
    else if decide (k = "old_path")
         then Some (dict_get diff_item "old_path" (PyStr ""))
    else if decide (k = "new_path")
         then Some (dict_get diff_item "new_path" (PyStr ""))
    else None.
Proof.
  unfold filter_diff_item.
  destruct (diff_item !! "new_file") as [v|] eqn:Hnf;
    repeat case_decide; subst; simplify_map_eq; done.
Qed.

Lemma filter_diff_item_dom (diff_item : gmap string pyval) :
  dom (filter_diff_item diff_item) ⊆ diff_entry_keys.
Proof.
  intros k Hk. apply elem_of_dom in Hk as [v Hv].
  rewrite filter_diff_item_lookup in Hv. unfold diff_entry_keys.
  repeat case_decide; subst; set_solver.
Qed.

(** C5: every entry of the filtered diff has keys among [new_path],
    [old_path] and [new_file] only; [new_path] and [old_path] are always
    present; [new_file] is present exactly when the source entry has the key
    [new_file], with the source's value (no default is ever supplied). *)
Theorem filter_diff_data_keys (diff : list (gmap string pyval)) :
  Forall2 (fun diff_item filtered_item =>
             dom filtered_item ⊆ diff_entry_keys
             ∧ "new_path" ∈ dom filtered_item
             ∧ "old_path" ∈ dom filtered_item
             ∧ ("new_file" ∈ dom filtered_item ↔ "new_file" ∈ dom diff_item)
             ∧ filtered_item !! "new_file" = diff_item !! "new_file")
          diff (filter_diff_data diff).
Proof.
  rewrite filter_diff_data_map.
  induction diff as [|diff_item diff IH]; simpl; constructor; [|exact IH].
  split; [apply filter_diff_item_dom|].
  rewrite !elem_of_dom, !filter_diff_item_lookup. simpl.
  repeat split; eauto.
Qed.

(** C10: the filtered diff has exactly as many entries as the input, and
    the [new_path] and [old_path] of an output entry are the source's values
    when the source has the key and the empty string when it lacks it (the
    field is never omitted). *)
Theorem filter_diff_data_length_and_defaults (diff : list (gmap string pyval)) :
  length (filter_diff_data diff) = length diff
  ∧ Forall2 (fun diff_item filtered_item =>
               (diff_item !! "new_path" = None →
                filtered_item !! "new_path" = Some (PyStr ""))
               ∧ (diff_item !! "old_path" = None →
                  filtered_item !! "old_path" = Some (PyStr ""))
               ∧ (∀ v, diff_item !! "new_path" = Some v →
                       filtered_item !! "new_path" = Some v)
               ∧ (∀ v, diff_item !! "old_path" = Some v →
                       filtered_item !! "old_path" = Some v))
            diff (filter_diff_data diff).
Proof.
  rewrite filter_diff_data_map. split; [by rewrite length_map|].
  induction diff as [|diff_item diff IH]; simpl; constructor; [|exact IH].
  rewrite !filter_diff_item_lookup. simpl. unfold dict_get.
  repeat split; intros; simplify_option_eq; done.
Qed.


(** ** The bounded loops

    Each [while True] loop of the program stops by itself once its page
    counter passes its limit; the fuel given to its model is never what
    stops it. *)

Lemma projects_pagination_fuel (gl : Gitlab) (fuel : nat) (page : Z)
    (projects : list (gmap string pyval)) :
  1 ≤ page ≤ 100 →
  101 - page ≤ Z.of_nat fuel →
  projects_pagination gl (S fuel) page projects
  = projects_pagination gl fuel page projects.
Proof.
  revert page projects.
  induction fuel as [|fuel IH]; intros page projects Hpage Hfuel; [lia|].
  change (projects_pagination gl (S (S fuel)) page projects)
    with (batch ← projects_list_page gl page 100;
          match batch with
          | [] => Ok projects
          | _ => if page + 1 >? 100 then Ok (projects ++ batch)
                 else projects_pagination gl (S fuel) (page + 1)
                        (projects ++ batch)
          end).
  change (projects_pagination gl (S fuel) page projects)
    with (batch ← projects_list_page gl page 100;
          match batch with
          | [] => Ok projects
          | _ => if page + 1 >? 100 then Ok (projects ++ batch)
                 else projects_pagination gl fuel (page + 1)
                        (projects ++ batch)
          end).
  destruct (projects_list_page gl page 100) as [[|p batch]|e]; try done.
  cbn -[projects_pagination].
  destruct (page + 1 >? 100) eqn:Hlast; [done|]. apply IH; lia.
Qed.

Lemma users_pagination_fuel (gl : Gitlab) (fuel : nat) (page : Z)
    (users : list (gmap string pyval)) :
  1 ≤ page ≤ 50 →
  51 - page ≤ Z.of_nat fuel →
  users_pagination gl (S fuel) page users
  = users_pagination gl fuel page users.
Proof.
  revert page users.
  induction fuel as [|fuel IH]; intros page users Hpage Hfuel; [lia|].
  change (users_pagination gl (S (S fuel)) page users)
    with (match users_list_page gl page 100 with
          | Raise _ => users
          | Ok batch =>
              match page_users batch with
              | [] => users
              | batch_users =>
                  if page + 1 >? 50 then users ++ batch_users
                  else users_pagination gl (S fuel) (page + 1)
                         (users ++ batch_users)
              end
          end).
  change (users_pagination gl (S fuel) page users)
    with (match users_list_page gl page 100 with
          | Raise _ => users
          | Ok batch =>
              match page_users batch with
              | [] => users
              | batch_users =>
                  if page + 1 >? 50 then users ++ batch_users
                  else users_pagination gl fuel (page + 1)
                         (users ++ batch_users)
              end
          end).
  destruct (users_list_page gl page 100) as [batch|e]; [|done].
  destruct (page_users batch) as [|u batch_users]; [done|].
  destruct (page + 1 >? 50) eqn:Hlast; [done|]. apply IH; lia.
Qed.


(** ** The time window *)

Section Window.
Context (W : World).

(** What [get_today_commits] computed when it returned: the window it
    passed to every fetch and the list it built. *)
Lemma get_today_commits_Ok (gl : Gitlab) (projects : list Project)
    (days : Z) (debug : bool) (threads : Z) (all_commits : list CommitRecord) :
  get_today_commits W gl projects days debug threads = Ok all_commits →
  ∃ start_date end_date,
    commit_window W days = Ok (start_date, end_date)
    ∧ all_commits = collect_commits (as_completed W
        (map (fun project =>
                (get_project_commits W project gl start_date end_date debug,
                 p_path_with_namespace project)) projects)).
Proof.
  unfold get_today_commits. intros H.
  apply bind_Ok in H as ([start_date end_date] & Hwin & H).
  apply bind_Ok in H as (max_workers & _ & H).
  apply bind_Ok in H as ([] & _ & H).
  injection H as <-. by exists start_date, end_date.
Qed.

(** C3 (amended): for [days = N] with [1 <= N] and [N] at most the
    ordinal of today (so that the start is not before 0001-01-01), the
    window is computed, its end is the clock reading [now()] and its start
    is the midnight of that day moved back by [N - 1] days; for [N = 1]
    the start is the midnight of today. Every fetch of
    [get_today_commits] is given this window. *)
Theorem commit_window_spec (days : Z) :
  1 ≤ wc_ordinal (now_window W) ≤ MAXORDINAL →
  1 ≤ days ≤ wc_ordinal (now_window W) →
  ∃ start_date end_date,
    commit_window W days = Ok (start_date, end_date)
    ∧ end_date = datetime_now (now_window W)
    ∧ start_date =
        {| dt_ordinal := wc_ordinal (now_window W) - (days - 1);
           dt_hour := 0; dt_minute := 0; dt_second := 0;
           dt_microsecond := 0; dt_utcoffset := None |}
    ∧ (days = 1 → start_date = replace_midnight (datetime_now (now_window W)))
    ∧ ∀ gl projects debug threads all_commits,
        get_today_commits W gl projects days debug threads = Ok all_commits →
        all_commits = collect_commits (as_completed W
          (map (fun project =>
                  (get_project_commits W project gl start_date end_date debug,
                   p_path_with_namespace project)) projects)).
Proof.
  intros Hnow Hdays.
  assert (Hwin : commit_window W days = Ok
    ({| dt_ordinal := wc_ordinal (now_window W) - (days - 1);
        dt_hour := 0; dt_minute := 0; dt_second := 0;
        dt_microsecond := 0; dt_utcoffset := None |},
     datetime_now (now_window W))).
  { unfold commit_window, timedelta_days, datetime_sub, MAXORDINAL in *.
    assert ((Z.abs (days - 1) >? 999999999) = false) as -> by lia.
    simpl.
    assert ((0 <? wc_ordinal (now_window W) - (days - 1))
            && (wc_ordinal (now_window W) - (days - 1) <=? 3652059) = true)
      as -> by lia.
    done. }
  eexists _, _. split; [exact Hwin|]. split; [done|]. split; [done|].
  split.
  - intros ->. unfold replace_midnight. simpl. f_equal. lia.
  - intros gl projects debug threads all_commits H.
    apply get_today_commits_Ok in H as (s & e & Hw & ->).
    rewrite Hwin in Hw. by injection Hw as <- <-.
Qed.

(** Beyond that bound no window is computed. *)
Lemma commit_window_overflow (days : Z) :
  1 ≤ wc_ordinal (now_window W) ≤ MAXORDINAL →
  wc_ordinal (now_window W) < days →
  ∃ e, commit_window W days = Raise e
       ∧ ∀ gl projects debug threads,
           get_today_commits W gl projects days debug threads = Raise e.
Proof.
  intros Hnow Hdays.
  unfold get_today_commits, commit_window, timedelta_days, datetime_sub.
  destruct (Z.abs (days - 1) >? 999999999); simpl; [eauto|].
  assert ((0 <? wc_ordinal (now_window W) - (days - 1))
          && (wc_ordinal (now_window W) - (days - 1) <=? MAXORDINAL) = false)
    as -> by lia.
  eauto.
Qed.

End Window.

(** C3, as stated, fails at [days = 1000000] on 2025-06-15: the start
    would lie before the year 1, the subtraction raises and no window is
    computed. *)
Lemma commit_window_counterexample :
  1 ≤ 1000000
  ∧ commit_window Mock.world 1000000
    = Raise (Exn "OverflowError" "date value out of range")
  ∧ get_today_commits Mock.world Mock.gl [] 1000000 false 0
    = Raise (Exn "OverflowError" "date value out of range").
Proof. split; [lia|]. split; reflexivity. Qed.

Lemma commit_window_spec_witness :
  ∃ start_date end_date,
    commit_window Mock.world 3 = Ok (start_date, end_date)
    ∧ end_date = datetime_now (now_window Mock.world)
    ∧ start_date =
        {| dt_ordinal := Iso.ymd2ord 2025 6 13;
           dt_hour := 0; dt_minute := 0; dt_second := 0;
           dt_microsecond := 0; dt_utcoffset := None |}.
Proof.
  destruct (commit_window_spec Mock.world 3) as (s & e & H1 & H2 & H3 & _).
  - vm_compute. split; discriminate.
  - vm_compute. split; discriminate.
  - exists s, e. split; [exact H1|]. split; [exact H2|]. exact H3.
Defined.

(** ** The conversion of [created_at] *)

Lemma str_replace_Z_id (s : string) :
  contains_Z s = false → str_replace_Z s = s.
Proof.
  induction s as [|c s IH]; simpl; [done|].
  destruct (Ascii.eqb c "Z"); simpl; [done|].
  intros H. by rewrite IH.
Qed.

Lemma string_length_app (a b : string) :
  String.length (a +:+ b) = (String.length a + String.length b)%nat.
Proof.
  induction a as [|c a IH]; [done|].
  change (String c a +:+ b) with (String c (a +:+ b)). simpl. by rewrite IH.
Qed.

Lemma str_replace_Z_length (s : string) :
  (String.length s ≤ String.length (str_replace_Z s))%nat
  ∧ (contains_Z s = true →
     String.length s < String.length (str_replace_Z s))%nat.
Proof.
  induction s as [|c s [IH1 IH2]]; simpl; [split; [lia|done]|].
  destruct (Ascii.eqb c "Z"); [rewrite string_length_app|]; simpl;
    (split; [lia|]); intros H; [lia|].
  specialize (IH2 H). lia.
Qed.

(** A string with a [Z] is changed by the replacement. *)
Lemma str_replace_Z_changes (s : string) :
  contains_Z s = true → str_replace_Z s ≠ s.
Proof.
  intros H Heq. apply str_replace_Z_length in H. rewrite Heq in H. lia.
Qed.

Section CreatedAt.
Context (W : World).

Lemma commit_data_created_at (project : ProjectHandle) (info : Project)
    (commit : gmap string pyval) (data : CommitRecord) :
  commit_data W project info commit = Ok data →
  ∃ v, commit !! "created_at" = Some v
       ∧ created_at data = normalize_created_at W v.
Proof.
  unfold commit_data. intros H.
  apply bind_Ok in H as (id & _ & H).
  apply bind_Ok in H as (full_commit & _ & H).
  apply bind_Ok in H as (v & Hv & H).
  apply bind_Ok in H as (t & _ & H).
  apply bind_Ok in H as (m & _ & H).
  apply bind_Ok in H as (an & _ & H).
  apply bind_Ok in H as (ae & _ & H).
  injection H as <-. simpl. exists v. split; [|done].
  unfold getattr in Hv. destruct (commit !! "created_at"); by simplify_eq.
Qed.

(** C4 (amended): for a commit whose [created_at] is a string [s], the
    record holds [isoformat] of the parsed date when the parse of [s]
    (with every [Z] replaced by [+00:00]) succeeds, and holds [s]
    unchanged when the parse fails and [s] has no [Z]. *)
Theorem created_at_normalization (project : ProjectHandle) (info : Project)
    (commit : gmap string pyval) (data : CommitRecord) (s : string) :
  commit_data W project info commit = Ok data →
  commit !! "created_at" = Some (PyStr s) →
  match fromisoformat W (str_replace_Z s) with
  | Ok dt => created_at data = PyStr (isoformat W dt)
  | Raise _ => contains_Z s = false → created_at data = PyStr s
  end.
Proof.
  intros Hdata Hs.
  apply commit_data_created_at in Hdata as (v & Hv & ->).
  rewrite Hs in Hv. injection Hv as <-. simpl.
  destruct (fromisoformat W (str_replace_Z s)) as [dt|e] eqn:Hparse; [done|].
  intros HZ. by rewrite str_replace_Z_id.
Qed.

(** The case C4 leaves out: when the parse fails and [s] has a [Z], the
    record holds the replaced string, which differs from [s]. *)
Lemma created_at_replaced_on_failure (s : string) (e : exn) :
  fromisoformat W (str_replace_Z s) = Raise e →
  contains_Z s = true →
  normalize_created_at W (PyStr s) = PyStr (str_replace_Z s)
  ∧ normalize_created_at W (PyStr s) ≠ PyStr s.
Proof.
  intros Hparse HZ. simpl. rewrite Hparse. split; [done|].
  intros [= H]. by apply str_replace_Z_changes in HZ.
Qed.

End CreatedAt.

(** C4, as stated, fails in both halves. A [created_at] without offset
    parses and is printed back without offset; a [created_at] with a [Z]
    that does not parse is stored with the [Z] replaced. *)
Lemma created_at_counterexample :
  (∃ data dt,
     commit_data Mock.world Mock.project_c (Mock.info 3 "gamma") Mock.commit_c1
     = Ok data
     ∧ Mock.commit_c1 !! "created_at" = Some (PyStr "2025-06-15T08:00:00")
     ∧ fromisoformat Mock.world (str_replace_Z "2025-06-15T08:00:00") = Ok dt
     ∧ created_at data = PyStr "2025-06-15T08:00:00"
     ∧ Iso.ends_with_utc_offset "2025-06-15T08:00:00" = false)
  ∧ (∃ data e,
       commit_data Mock.world Mock.project_c (Mock.info 3 "gamma") Mock.commit_c4
       = Ok data
       ∧ Mock.commit_c4 !! "created_at" = Some (PyStr "2025-02-30T08:00:00Z")
       ∧ fromisoformat Mock.world (str_replace_Z "2025-02-30T08:00:00Z")
         = Raise e
       ∧ created_at data = PyStr "2025-02-30T08:00:00+00:00"
       ∧ created_at data ≠ PyStr "2025-02-30T08:00:00Z").
Proof.
  split.
  - eexists _, _. repeat split; vm_compute; reflexivity.
  - eexists _, _. split; [vm_compute; reflexivity|].
    split; [vm_compute; reflexivity|]. split; [vm_compute; reflexivity|].
    split; [vm_compute; reflexivity|]. vm_compute. discriminate.
Qed.

Lemma created_at_normalization_witness :
  ∃ data,
    commit_data Mock.world Mock.project_a (Mock.info 1 "alpha") Mock.commit_a2
    = Ok data
    ∧ created_at data = PyStr "2025-06-15T10:01:00+00:00".
Proof.
  eexists. split; [vm_compute; reflexivity|].
  exact (created_at_normalization Mock.world Mock.project_a
           (Mock.info 1 "alpha") Mock.commit_a2 _ "2025-06-15T10:01:00Z"
           eq_refl eq_refl).
Defined.

(** ** The fallback ladder of [get_project_commits] *)

Lemma datetime_le_naive (a b : datetime) :
  dt_utcoffset a = None →
  datetime_le a b = Ok true →
  dt_utcoffset b = None ∧ wall_micros a ≤ wall_micros b.
Proof.
  unfold datetime_le. intros ->.
  destruct (dt_utcoffset b); [done|]. intros [= H]. split; [done|lia].
Qed.

Section ManualPagination.
Context (W : World) (project : ProjectHandle).
Context (start_date end_date : datetime).

Lemma in_window_true (commit : gmap string pyval) :
  in_window W start_date end_date commit = Ok true →
  within_window W start_date end_date commit.
Proof.
  unfold in_window, within_window.
  destruct (hasattr commit "created_at"); [|done]. intros H.
  apply bind_Ok in H as (v & Hv & H).
  apply bind_Ok in H as (s & Hs & H).
  apply bind_Ok in H as (commit_date & Hparse & H).
  apply bind_Ok in H as (lower & Hlower & H).
  destruct lower; [|done].
  exists s, commit_date. repeat split; try done.
  unfold getattr in Hv. destruct (commit !! "created_at") as [v'|]; [|done].
  injection Hv as ->. destruct v; try done. by injection Hs as ->.
Qed.

(** The inner loop appends only commits of the batch that pass the
    test. *)
Lemma filter_batch_elem (batch commits : list (gmap string pyval))
    (commit : gmap string pyval) :
  commit ∈ (filter_batch W start_date end_date commits batch).1 →
  commit ∈ commits
  ∨ (commit ∈ batch ∧ in_window W start_date end_date commit = Ok true).
Proof.
  revert commits. induction batch as [|c batch IH]; intros commits; simpl.
  - by left.
  - destruct (in_window W start_date end_date c) as [[]|e] eqn:Hc; simpl.
    + intros H. apply IH in H as [H|[H1 H2]].
      * apply elem_of_app in H as [H|H]; [by left|].
        apply list_elem_of_singleton in H as ->. right. split; [left|done].
      * right. split; [by right|done].
    + intros H. apply IH in H as [H|[H1 H2]]; [by left|].
      right. split; [by right|done].
    + by left.
Qed.

(** The outer loop reads pages [page], [page + 1], ... up to page 10. *)
Lemma manual_pagination_elem (fuel : nat) (page : Z)
    (commits : list (gmap string pyval)) (commit : gmap string pyval) :
  1 ≤ page ≤ 10 →
  commit ∈ manual_pagination W project start_date end_date fuel page commits →
  commit ∈ commits
  ∨ (within_window W start_date end_date commit
     ∧ on_first_ten_pages project commit).
Proof.
  revert page commits.
  induction fuel as [|fuel IH]; intros page commits Hpage; simpl; [by left|].
  destruct (commits_list_page project page 100) as [batch|e] eqn:Hbatch;
    [|by left].
  destruct batch as [|c batch]; [by left|].
  destruct (filter_batch W start_date end_date commits (c :: batch))
    as [commits' raised] eqn:Hfilter.
  assert (Hstep : commit ∈ commits' →
    commit ∈ commits
    ∨ (within_window W start_date end_date commit
       ∧ on_first_ten_pages project commit)).
  { intros H.
    change commits' with (commits', raised).1 in H. rewrite <- Hfilter in H.
    apply filter_batch_elem in H as [H|[H1 H2]]; [by left|]. right.
    split; [by apply in_window_true|]. by exists page, (c :: batch). }
  destruct raised as [e|]; [exact Hstep|].
  destruct (page + 1 >? 10) eqn:Hlast; [exact Hstep|].
  intros H. apply IH in H as [H|H]; [by apply Hstep|by right|lia].
Qed.

(** Ten units of fuel are all the loop can use. *)
Lemma manual_pagination_fuel (fuel : nat) (page : Z)
    (commits : list (gmap string pyval)) :
  1 ≤ page ≤ 10 →
  11 - page ≤ Z.of_nat fuel →
  manual_pagination W project start_date end_date (S fuel) page commits
  = manual_pagination W project start_date end_date fuel page commits.
Proof.
  revert page commits.
  induction fuel as [|fuel IH]; intros page commits Hpage Hfuel; [lia|].
  change (manual_pagination W project start_date end_date (S (S fuel)) page commits)
    with (match commits_list_page project page 100 with
          | Raise _ => commits
          | Ok [] => commits
          | Ok batch =>
              match filter_batch W start_date end_date commits batch with
              | (commits, Some _) => commits
              | (commits, None) =>
                  if page + 1 >? 10 then commits
                  else manual_pagination W project start_date end_date
                         (S fuel) (page + 1) commits
              end
          end).
  simpl.
  destruct (commits_list_page project page 100) as [[|c batch]|e]; try done.
  destruct (filter_batch _ _ _ _ _) as [commits' [e|]]; [done|].
  destruct (page + 1 >? 10) eqn:Hlast; [done|]. apply IH; lia.
Qed.

(** The records of a project come from the commits listed. *)
Lemma commits_loop_origin (info : Project) (debug : bool)
    (commits : list (gmap string pyval))
    (project_commits : list CommitRecord) (record : CommitRecord) :
  record ∈ commits_loop W project info debug project_commits commits →
  record ∈ project_commits
  ∨ ∃ commit, commit ∈ commits
              ∧ commit_data W project info commit = Ok record.
Proof.
  revert project_commits.
  induction commits as [|c commits IH]; intros project_commits; simpl;
    [by left|].
  assert (Hstep : ∀ pcs raised,
    commit_step W project info debug project_commits c = (pcs, raised) →
    record ∈ pcs →
    record ∈ project_commits
    ∨ ∃ commit, commit ∈ c :: commits
                ∧ commit_data W project info commit = Ok record).
  { intros pcs raised. unfold commit_step.
    destruct (commit_data W project info c) as [data|e] eqn:Hdata.
    - assert (record ∈ project_commits ++ [data] →
              record ∈ project_commits
              ∨ ∃ commit, commit ∈ c :: commits
                          ∧ commit_data W project info commit = Ok record)
        as Happ.
      { intros H. apply elem_of_app in H as [H|H]; [by left|].
        apply list_elem_of_singleton in H as ->. right. exists c.
        split; [left|done]. }
      destruct debug; [destruct (getattr c "short_id")|];
        intros [= <- <-]; exact Happ.
    - intros [= <- <-]. by left. }
  destruct (commit_step W project info debug project_commits c)
    as [pcs raised] eqn:Hc.
  assert (Hrest : record ∈ commits_loop W project info debug pcs commits →
    record ∈ project_commits
    ∨ ∃ commit, commit ∈ c :: commits
                ∧ commit_data W project info commit = Ok record).
  { intros H. apply IH in H as [H|(commit & H1 & H2)].
    - by apply (Hstep pcs raised).
    - right. exists commit. split; [by right|done]. }
  destruct raised as [e|]; [|exact Hrest].
  destruct (getattr c "id"); [exact Hrest|]. by apply (Hstep pcs (Some e)).
Qed.

(** C6: when both filtered listings of a project raise, every commit the
    manual pagination selects carries a [created_at] that parses to a
    date [d] with [start_date <= d <= end_date], bounds included, and was
    read from one of the pages 1 to 10; every record returned for the
    project is built from such a commit. *)
Theorem manual_pagination_within_window (gl : Gitlab) (info : Project)
    (debug : bool) (e1 e2 : exn) :
  projects_get gl (p_id info) = Ok project →
  commits_list_since_until project (isoformat W start_date)
    (isoformat W end_date) = Raise e1 →
  commits_list_since project (isoformat W start_date) = Raise e2 →
  list_commits W project start_date end_date
  = manual_pagination W project start_date end_date 10 1 []
  ∧ (∀ commit, commit ∈ list_commits W project start_date end_date →
       within_window W start_date end_date commit
       ∧ on_first_ten_pages project commit)
  ∧ ∃ project_commits,
      get_project_commits W info gl start_date end_date debug
      = Ok project_commits
      ∧ ∀ record, record ∈ project_commits →
          ∃ commit, within_window W start_date end_date commit
                    ∧ on_first_ten_pages project commit
                    ∧ commit_data W project info commit = Ok record.
Proof.
  intros Hget H1 H2.
  assert (Hlist : list_commits W project start_date end_date
                  = manual_pagination W project start_date end_date 10 1 []).
  { unfold list_commits. by rewrite H1, H2. }
  assert (Hsel : ∀ commit,
    commit ∈ list_commits W project start_date end_date →
    within_window W start_date end_date commit
    ∧ on_first_ten_pages project commit).
  { intros commit. rewrite Hlist. intros H.
    apply manual_pagination_elem in H as [H|H]; [|done|lia].
    by apply elem_of_nil in H. }
  split; [exact Hlist|]. split; [exact Hsel|].
  unfold get_project_commits. rewrite Hget. eexists. split; [done|].
  intros record H. apply commits_loop_origin in H as [H|(commit & Hc & Hd)].
  - by apply elem_of_nil in H.
  - exists commit. destruct (Hsel commit Hc). done.
Qed.

End ManualPagination.

Lemma manual_pagination_within_window_witness :
  let start_date := replace_midnight (datetime_now (now_window Mock.world)) in
  let end_date := datetime_now (now_window Mock.world) in
  list_commits Mock.world Mock.project_c start_date end_date = [Mock.commit_c1]
  ∧ within_window Mock.world start_date end_date Mock.commit_c1
  ∧ on_first_ten_pages Mock.project_c Mock.commit_c1.
Proof.
  intros start_date end_date.
  assert (Hlist : list_commits Mock.world Mock.project_c start_date end_date
                  = [Mock.commit_c1]) by (vm_compute; reflexivity).
  split; [exact Hlist|].
  apply (manual_pagination_within_window Mock.world Mock.project_c
           start_date end_date Mock.gl (Mock.info 3 "gamma") false
           Mock.server_error Mock.server_error eq_refl eq_refl eq_refl).
  rewrite Hlist. left.
Defined.

(** ** The fan-out over the pages of users *)



Lemma _get_all_users_sequential_never_raises (gl : Gitlab) (debug : bool) :
  ∃ users, _get_all_users_sequential gl debug = Ok users.
Proof.
  unfold _get_all_users_sequential.
  apply (try_except_returns _ (fun _ => [])).
Qed.

Lemma get_user_batch_never_raises (gl : Gitlab) (page per_page : Z)
    (debug : bool) :
  ∃ users, get_user_batch gl page per_page debug = Ok users.
Proof. unfold get_user_batch. apply (try_except_returns _ (fun _ => [])). Qed.

Section UserPages.
Context (W : World).

Lemma get_all_users_never_raises (gl : Gitlab) (debug : bool) (threads : Z) :
  ∃ users, get_all_users W gl debug threads = Ok users.
Proof. unfold get_all_users. apply (try_except_returns _ (fun _ => [])). Qed.

Lemma pool_created (threads cap k : Z) :
  pool_available W threads → 0 < cap → 0 < k →
  ∃ max_workers,
    (if threads <=? 0 then default_workers W cap k else Ok threads)
    = Ok max_workers
    ∧ ThreadPoolExecutor max_workers = Ok ().
Proof.
  intros Hpool Hcap Hk. unfold ThreadPoolExecutor.
  destruct (threads <=? 0) eqn:Hthreads.
  - destruct Hpool as [Hpos|(n & Hn & Hpos)]; [lia|].
    unfold default_workers. rewrite Hn. eexists. split; [done|].
    assert ((Z.min cap (n * k) <=? 0) = false) as -> by lia. done.
  - exists threads. split; [done|]. by rewrite Hthreads.
Qed.



End UserPages.


(** ** The entry point *)

Section EntryPoint.
Context (W : World).
Implicit Types (url token : string) (days threads : Z) (debug : bool).

Lemma get_gitlab_client_auth url token debug :
  (∀ e, gitlab_auth W url token = Raise e →
        get_gitlab_client W url token debug = Raise e)
  ∧ (∀ gl, get_gitlab_client W url token debug = Ok gl →
           gitlab_auth W url token = Ok gl).
Proof.
  unfold get_gitlab_client. split.
  - intros e ->. done.
  - intros gl. destruct (gitlab_auth W url token) as [gl'|e]; simpl; [|done].
    destruct debug; [|by intros [= <-]].
    destruct (getattr _ _); simpl; [by intros [= <-]|done].
Qed.

(** What the [try] block computed when it ran to its end. *)
Lemma collect_report_Ok url token days debug threads report :
  collect_report W url token days debug threads = Ok report →
  ∃ gl projects users,
    get_gitlab_client W url token debug = Ok gl
    ∧ get_all_projects gl debug = Ok projects
    ∧ get_all_users W gl debug threads = Ok users
    ∧ get_today_commits W gl projects days debug threads
      = Ok (commits report)
    ∧ metadata report = list_to_map
        [ ("date", PyStr (isoformat W (datetime_now (now_report W))));
          ("gitlab_url", PyStr url);
          ("days_included", PyInt days);
          ("projects_count", py_len projects);
          ("users_count", py_len users);
          ("commits_count", py_len (commits report)) ].
Proof.
  unfold collect_report. intros H.
  apply bind_Ok in H as (gl & Hgl & H).
  apply bind_Ok in H as (projects & Hprojects & H).
  apply bind_Ok in H as (users & Husers & H).
  apply bind_Ok in H as (commits & Hcommits & H).
  injection H as <-. simpl. by exists gl, projects, users.
Qed.

Lemma get_all_projects_never_raises (gl : Gitlab) debug :
  ∃ projects, get_all_projects gl debug = Ok projects.
Proof. unfold get_all_projects. apply (try_except_returns _ (fun _ => [])). Qed.

(** The two steps of the [try] block that can end it with an exception:
    the enumerators always return. *)
Lemma collect_report_Raise url token days debug threads e :
  collect_report W url token days debug threads = Raise e →
  get_gitlab_client W url token debug = Raise e
  ∨ (∃ gl projects,
       get_gitlab_client W url token debug = Ok gl
       ∧ get_all_projects gl debug = Ok projects
       ∧ get_today_commits W gl projects days debug threads = Raise e).
Proof.
  unfold collect_report. intros H.
  apply bind_Raise in H as [H|(gl & Hgl & H)]; [by left|].
  destruct (get_all_projects_never_raises gl debug) as [projects Hp].
  destruct (get_all_users_never_raises W gl debug threads) as [users Hu].
  rewrite Hp, Hu in H. simpl in H.
  apply bind_Raise in H as [H|(commits & Hcommits & H)]; [|done].
  right. by exists gl, projects.
Qed.

Lemma error_message_nonempty (e : exn) : error_message e ≠ "".
Proof. unfold error_message. simpl. discriminate. Qed.

Lemma get_commits_data_failure url token days debug threads e :
  collect_report W url token days debug threads = Raise e →
  get_commits_data W url token days debug threads = Ok (error_report W e).
Proof. unfold get_commits_data. by intros ->. Qed.

Lemma get_commits_data_success url token days debug threads report :
  get_commits_data W url token days debug threads = Ok report →
  metadata report !! "error" = None →
  collect_report W url token days debug threads = Ok report.
Proof.
  unfold get_commits_data.
  destruct (collect_report _ _ _ _ _ _) as [r|e]; simpl.
  - by intros [= <-].
  - intros [= <-]. discriminate.
Qed.

(** C1: [get_commits_data] returns a report whatever its arguments and
    whatever the world does. When the [try] block raises, which happens
    in particular when the authentication raises, the report carries the
    non-empty [metadata.error] text and an empty list of commits. *)
Theorem get_commits_data_never_raises url token days debug threads :
  (∃ report, get_commits_data W url token days debug threads = Ok report)
  ∧ (∀ e, collect_report W url token days debug threads = Raise e →
          ∃ report error_msg,
            get_commits_data W url token days debug threads = Ok report
            ∧ metadata report !! "error" = Some (PyStr error_msg)
            ∧ error_msg ≠ ""
            ∧ commits report = [])
  ∧ (∀ e, gitlab_auth W url token = Raise e →
          ∃ report error_msg,
            get_commits_data W url token days debug threads = Ok report
            ∧ metadata report !! "error" = Some (PyStr error_msg)
            ∧ error_msg ≠ ""
            ∧ commits report = []).
Proof.
  assert (Hfail : ∀ e,
    collect_report W url token days debug threads = Raise e →
    ∃ report error_msg,
      get_commits_data W url token days debug threads = Ok report
      ∧ metadata report !! "error" = Some (PyStr error_msg)
      ∧ error_msg ≠ "" ∧ commits report = []).
  { intros e He. exists (error_report W e), (error_message e).
    split; [by apply get_commits_data_failure|].
    split; [done|]. split; [apply error_message_nonempty|done]. }
  split; [apply try_except_returns|]. split; [exact Hfail|].
  intros e He. apply (Hfail e). unfold collect_report.
  by rewrite (proj1 (get_gitlab_client_auth url token debug) e He).
Qed.

(** C2: in the report of a run that did not fail, the three counts of the
    metadata are the lengths of the list of projects enumerated, of the
    list of users collected and of the list of commits of the report. *)
Theorem report_counts_are_lengths url token days debug threads report :
  get_commits_data W url token days debug threads = Ok report →
  metadata report !! "error" = None →
  ∃ gl projects users,
    get_gitlab_client W url token debug = Ok gl
    ∧ get_all_projects gl debug = Ok projects
    ∧ get_all_users W gl debug threads = Ok users
    ∧ get_today_commits W gl projects days debug threads
      = Ok (commits report)
    ∧ metadata report !! "projects_count"
      = Some (PyInt (Z.of_nat (length projects)))
    ∧ metadata report !! "users_count"
      = Some (PyInt (Z.of_nat (length users)))
    ∧ metadata report !! "commits_count"
      = Some (PyInt (Z.of_nat (length (commits report)))).
Proof.
  intros Hrun Hok.
  apply get_commits_data_success in Hrun; [|done].
  apply collect_report_Ok in Hrun
    as (gl & projects & users & Hgl & Hp & Hu & Hc & Hmeta).
  exists gl, projects, users. rewrite Hmeta. done.
Qed.

(** C9: the metadata of the report returned on failure has the two keys
    [date] and [error] and no other, while the metadata of a report
    returned on success has the keys [date], [gitlab_url],
    [days_included], [projects_count], [users_count] and [commits_count]
    and no key [error]. *)
Theorem error_report_metadata_keys url token days debug threads :
  (∀ e, collect_report W url token days debug threads = Raise e →
        ∃ report,
          get_commits_data W url token days debug threads = Ok report
          ∧ dom (metadata report) = {[ "date"; "error" ]}
          ∧ metadata report !! "gitlab_url" = None
          ∧ metadata report !! "days_included" = None
          ∧ metadata report !! "projects_count" = None
          ∧ metadata report !! "users_count" = None
          ∧ metadata report !! "commits_count" = None)
  ∧ (∀ report, collect_report W url token days debug threads = Ok report →
        get_commits_data W url token days debug threads = Ok report
        ∧ dom (metadata report)
          = {[ "date"; "gitlab_url"; "days_included"; "projects_count";
               "users_count"; "commits_count" ]}).
Proof.
  split.
  - intros e He. exists (error_report W e).
    split; [by apply get_commits_data_failure|].
    split; [|done]. simpl. rewrite !dom_insert_L. set_solver.
  - intros report Hr. split.
    + unfold get_commits_data. by rewrite Hr.
    + apply collect_report_Ok in Hr
        as (gl & projects & users & _ & _ & _ & _ & ->).
      simpl. rewrite !dom_insert_L. set_solver.
Qed.

End EntryPoint.

(** ** The fan-out over the projects *)

Lemma fold_left_append_flat_map {A B : Type} (f : A → list B) (xs : list A)
    (acc : list B) :
  fold_left (fun acc x => acc ++ f x) xs acc = acc ++ flat_map f xs.
Proof.
  revert acc. induction xs as [|x xs IH]; intros acc; simpl.
  - by rewrite app_nil_r.
  - rewrite IH. by rewrite <- app_assoc.
Qed.

Lemma flat_map_map {A B C : Type} (f : A → B) (g : B → list C) (xs : list A) :
  flat_map g (map f xs) = flat_map (fun x => g (f x)) xs.
Proof. induction xs as [|x xs IH]; simpl; [done|]. by rewrite IH. Qed.

Section FanOut.
Context (W : World).

(** The aggregate is made of the contributions of the futures. *)
Lemma collect_commits_flat_map
    (completed : list (result (list CommitRecord) * pyval)) :
  collect_commits completed
  = flat_map (fun future => match future.1 with
                            | Ok project_commits => project_commits
                            | Raise _ => []
                            end) completed.
Proof.
  unfold collect_commits.
  enough (∀ acc : list CommitRecord,
    fold_left (fun all_commits (future : result (list CommitRecord) * pyval) =>
                 match future.1 with
                 | Ok project_commits => all_commits ++ project_commits
                 | Raise _ => all_commits
                 end) completed acc
    = acc ++ flat_map (fun future => match future.1 with
                                     | Ok project_commits => project_commits
                                     | Raise _ => []
                                     end) completed) as H by apply H.
  induction completed as [|[[l|e] path] completed IH]; intros acc; simpl.
  - by rewrite app_nil_r.
  - by rewrite IH, app_assoc.
  - by rewrite IH.
Qed.

(** Whatever the order of completion, the aggregate holds the commits of
    every project, each as often as its fetch returned it. *)
Lemma get_today_commits_permutation (gl : Gitlab) (projects : list Project)
    (days : Z) (debug : bool) (threads : Z)
    (all_commits : list CommitRecord) :
  get_today_commits W gl projects days debug threads = Ok all_commits →
  ∃ start_date end_date,
    commit_window W days = Ok (start_date, end_date)
    ∧ all_commits
      ≡ₚ flat_map (fetched_commits W gl start_date end_date debug) projects.
Proof.
  intros H.
  apply get_today_commits_Ok in H as (start_date & end_date & Hwin & ->).
  exists start_date, end_date. split; [done|].
  rewrite collect_commits_flat_map.
  rewrite (Permutation_flat_map _ (as_completed_perm W _ _)).
  by rewrite flat_map_map.
Qed.

(** A project that cannot be fetched contributes nothing, without an
    exception. *)
Lemma get_project_commits_unreachable (gl : Gitlab) (project : Project)
    (start_date end_date : datetime) (debug : bool) (e : exn) :
  projects_get gl (p_id project) = Raise e →
  get_project_commits W project gl start_date end_date debug = Ok [].
Proof. unfold get_project_commits. by intros ->. Qed.

Lemma get_project_commits_never_raises (gl : Gitlab) (project : Project)
    (start_date end_date : datetime) (debug : bool) :
  ∃ project_commits,
    get_project_commits W project gl start_date end_date debug
    = Ok project_commits.
Proof. unfold get_project_commits. destruct (projects_get _ _); eauto. Qed.

(** C7: in a run that did not fail, the commits of the report are, up to
    order, the commits fetched for each enumerated project; a project
    whose fetch fails entirely contributes nothing and takes nothing away
    from the others, and [projects_count] is the number of projects
    enumerated, the failed ones included. *)
Theorem failed_project_is_isolated (url token : string) (days : Z)
    (debug : bool) (threads : Z) (report : Report) :
  get_commits_data W url token days debug threads = Ok report →
  metadata report !! "error" = None →
  ∃ gl projects start_date end_date,
    get_gitlab_client W url token debug = Ok gl
    ∧ get_all_projects gl debug = Ok projects
    ∧ commit_window W days = Ok (start_date, end_date)
    ∧ get_today_commits W gl projects days debug threads
      = Ok (commits report)
    ∧ commits report
      ≡ₚ flat_map (fetched_commits W gl start_date end_date debug) projects
    ∧ (∀ project record,
         project ∈ projects →
         record ∈ fetched_commits W gl start_date end_date debug project →
         record ∈ commits report)
    ∧ (∀ project e,
         projects_get gl (p_id project) = Raise e →
         fetched_commits W gl start_date end_date debug project = [])
    ∧ metadata report !! "projects_count"
      = Some (PyInt (Z.of_nat (length projects))).
Proof.
  intros Hrun Hok.
  apply get_commits_data_success in Hrun; [|done].
  apply collect_report_Ok in Hrun
    as (gl & projects & users & Hgl & Hp & Hu & Hc & Hmeta).
  destruct (get_today_commits_permutation _ _ _ _ _ _ Hc)
    as (start_date & end_date & Hwin & Hperm).
  exists gl, projects, start_date, end_date.
  repeat split; try done.
  - intros project record Hproject Hrecord. rewrite Hperm.
    apply list_elem_of_In, in_flat_map. exists project.
    by rewrite <- !list_elem_of_In.
  - intros project e He. unfold fetched_commits.
    by rewrite (get_project_commits_unreachable _ _ _ _ _ e He).
  - by rewrite Hmeta.
Qed.

End FanOut.

Lemma failed_project_is_isolated_witness :
  get_commits_data Mock.world Mock.url "glpat-admin" 1 false 0 = Ok Mock.report
  ∧ projects_get Mock.gl (PyInt 2) = Raise (Exn "ConnectionError" "connection reset by peer")
  ∧ ∃ gl projects start_date end_date,
      get_gitlab_client Mock.world Mock.url "glpat-admin" false = Ok gl
      ∧ get_all_projects gl false = Ok projects
      ∧ commit_window Mock.world 1 = Ok (start_date, end_date)
      ∧ get_today_commits Mock.world gl projects 1 false 0
        = Ok (commits Mock.report)
      ∧ commits Mock.report
        ≡ₚ flat_map (fetched_commits Mock.world gl start_date end_date false)
                    projects
      ∧ (∀ project record,
           project ∈ projects →
           record ∈ fetched_commits Mock.world gl start_date end_date false
                      project →
           record ∈ commits Mock.report)
      ∧ (∀ project e,
           projects_get gl (p_id project) = Raise e →
           fetched_commits Mock.world gl start_date end_date false project = [])
      ∧ metadata Mock.report !! "projects_count"
        = Some (PyInt (Z.of_nat (length projects))).
Proof.
  assert (Hrun : get_commits_data Mock.world Mock.url "glpat-admin" 1 false 0
                 = Ok Mock.report) by (vm_compute; reflexivity).
  split; [exact Hrun|]. split; [reflexivity|].
  exact (failed_project_is_isolated Mock.world Mock.url "glpat-admin" 1 false
           0 Mock.report Hrun eq_refl).
Defined.
(** ** Closed runs of the entry point *)

Lemma get_commits_data_never_raises_witness :
  gitlab_auth Mock.world Mock.url "expired" = Raise Mock.auth_error
  ∧ ∃ report error_msg,
      get_commits_data Mock.world Mock.url "expired" 1 false 0 = Ok report
      ∧ metadata report !! "error" = Some (PyStr error_msg)
      ∧ error_msg ≠ ""
      ∧ commits report = [].
Proof.
  split; [reflexivity|].
  exact (proj2 (proj2 (get_commits_data_never_raises Mock.world Mock.url
                         "expired" 1 false 0))
           Mock.auth_error eq_refl).
Defined.

Lemma report_counts_are_lengths_witness :
  get_commits_data Mock.world Mock.url "glpat-admin" 1 false 0 = Ok Mock.report
  ∧ metadata Mock.report !! "error" = None
  ∧ ∃ gl projects users,
      get_gitlab_client Mock.world Mock.url "glpat-admin" false = Ok gl
      ∧ get_all_projects gl false = Ok projects
      ∧ get_all_users Mock.world gl false 0 = Ok users
      ∧ get_today_commits Mock.world gl projects 1 false 0
        = Ok (commits Mock.report)
      ∧ metadata Mock.report !! "projects_count"
        = Some (PyInt (Z.of_nat (length projects)))
      ∧ metadata Mock.report !! "users_count"
        = Some (PyInt (Z.of_nat (length users)))
      ∧ metadata Mock.report !! "commits_count"
        = Some (PyInt (Z.of_nat (length (commits Mock.report)))).
Proof.
  assert (Hrun : get_commits_data Mock.world Mock.url "glpat-admin" 1 false 0
                 = Ok Mock.report) by (vm_compute; reflexivity).
  split; [exact Hrun|]. split; [reflexivity|].
  exact (report_counts_are_lengths Mock.world Mock.url "glpat-admin" 1 false
           0 Mock.report Hrun eq_refl).
Defined.

Lemma error_report_metadata_keys_witness :
  collect_report Mock.world Mock.url "expired" 1 false 0 = Raise Mock.auth_error
  ∧ ∃ report,
      get_commits_data Mock.world Mock.url "expired" 1 false 0 = Ok report
      ∧ dom (metadata report) = {[ "date"; "error" ]}
      ∧ metadata report !! "gitlab_url" = None
      ∧ metadata report !! "days_included" = None
      ∧ metadata report !! "projects_count" = None
      ∧ metadata report !! "users_count" = None
      ∧ metadata report !! "commits_count" = None.
Proof.
  split; [reflexivity|].
  exact (proj1 (error_report_metadata_keys Mock.world Mock.url "expired"
                  1 false 0) Mock.auth_error eq_refl).
Defined.

(** * Further properties *)

(** ** [filter_diff_data], once more *)

Lemma filter_diff_item_idempotent (diff_item : gmap string pyval) :
  filter_diff_item (filter_diff_item diff_item) = filter_diff_item diff_item.
Proof.
  apply map_eq. intros k. rewrite !filter_diff_item_lookup.
  unfold dict_get. rewrite !filter_diff_item_lookup. simpl.
  repeat case_decide; done.
Qed.

(** X1: filtering a diff that is already filtered changes nothing. *)
Theorem filter_diff_data_idempotent (diff : list (gmap string pyval)) :
  filter_diff_data (filter_diff_data diff) = filter_diff_data diff.
Proof.
  rewrite !filter_diff_data_map, map_map.
  apply map_ext. intros d. apply filter_diff_item_idempotent.
Qed.

(** ** Comprehensions over listed objects *)

Lemma mapM_Ok {A B : Type} (f : A → result B) (xs : list A) (ys : list B) :
  mapM f xs = Ok ys ↔ Forall2 (fun x y => f x = Ok y) xs ys.
Proof.
  revert ys. induction xs as [|x xs IH]; intros ys; simpl.
  - split.
    + intros [= <-]. constructor.
    + intros H. by inversion H.
  - split.
    + intros H. apply bind_Ok in H as (y & Hy & H).
      apply bind_Ok in H as (ys' & Hys & [= <-]).
      constructor; [done|]. by apply IH.
    + intros H. inversion H as [|? y ? ys' Hy Hys]; subst.
      rewrite Hy. simpl. apply IH in Hys. by rewrite Hys.
Qed.

Lemma mapM_Raise {A B : Type} (f : A → result B) (xs : list A) :
  forallb (fun x => is_ok (f x)) xs = false → is_ok (mapM f xs) = false.
Proof.
  induction xs as [|x xs IH]; simpl; [done|].
  destruct (f x) as [y|e]; simpl; [|done].
  intros H. specialize (IH H). by destruct (mapM f xs).
Qed.

Lemma mapM_returns {A B : Type} (f : A → result B) (xs : list A) :
  forallb (fun x => is_ok (f x)) xs = true → ∃ ys, mapM f xs = Ok ys.
Proof.
  induction xs as [|x xs IH]; simpl; [by eexists|].
  destruct (f x) as [y|e]; simpl; [|done].
  intros H. destruct (IH H) as [ys ->]. by eexists.
Qed.

Lemma hasattr_getattr (obj : gmap string pyval) (name : string) (v : pyval) :
  getattr obj name = Ok v ↔ obj !! name = Some v.
Proof. unfold getattr. destruct (obj !! name); split; by intros [= <-]. Qed.

Lemma project_info_Ok (project : gmap string pyval) (info : Project) :
  project_info project = Ok info ↔ projects_as project info.
Proof.
  unfold project_info, projects_as, getattr_default. split.
  - intros H.
    apply bind_Ok in H as (id & Hid%hasattr_getattr & H).
    apply bind_Ok in H as (name & Hname%hasattr_getattr & H).
    apply bind_Ok in H as (path & Hpath%hasattr_getattr & H).
    apply bind_Ok in H as (url & Hurl%hasattr_getattr & [= <-]). done.
  - intros (Hid & Hname & Hpath & Hvis & Hurl).
    apply hasattr_getattr in Hid, Hname, Hpath, Hurl.
    rewrite Hid, Hname, Hpath, Hurl. simpl. rewrite <- Hvis. by destruct info.
Qed.

Lemma project_info_complete (project : gmap string pyval) :
  is_ok (project_info project) = project_complete project.
Proof.
  unfold project_info, project_complete, hasattr, getattr.
  destruct (project !! "id"), (project !! "name"),
    (project !! "path_with_namespace"), (project !! "web_url"); done.
Qed.

Lemma user_info_Ok (user : gmap string pyval) (info : User) :
  user_info user = Ok info ↔ users_as user info.
Proof.
  unfold user_info, users_as, getattr_default. split.
  - intros H.
    apply bind_Ok in H as (id & Hid%hasattr_getattr & H).
    apply bind_Ok in H as (username & Huname%hasattr_getattr & H).
    apply bind_Ok in H as (name & Hname%hasattr_getattr & [= <-]). done.
  - intros (Hid & Huname & Hname & Hemail & Hstate).
    apply hasattr_getattr in Hid, Huname, Hname.
    rewrite Hid, Huname, Hname. simpl. rewrite <- Hemail, <- Hstate.
    by destruct info.
Qed.

Lemma user_info_complete (user : gmap string pyval) :
  is_ok (user_info user) = user_complete user.
Proof.
  unfold user_info, user_complete, hasattr, getattr.
  destruct (user !! "id"), (user !! "username"), (user !! "name"); done.
Qed.

(** The comprehension gives every listed object or nothing. *)
Lemma projection_all_or_nothing {A B : Type} (f : A → result B)
    (complete : A → bool) (xs : list A) :
  (∀ x, is_ok (f x) = complete x) →
  if forallb complete xs
  then ∃ ys, mapM f xs = Ok ys ∧ Forall2 (fun x y => f x = Ok y) xs ys
  else is_ok (mapM f xs) = false.
Proof.
  intros Hc.
  assert (forallb (fun x => is_ok (f x)) xs = forallb complete xs) as Heq.
  { induction xs as [|x xs IH]; simpl; [done|]. by rewrite Hc, IH. }
  destruct (forallb complete xs).
  - destruct (mapM_returns f xs Heq) as [ys Hys].
    exists ys. split; [done|]. by apply mapM_Ok.
  - by apply mapM_Raise.
Qed.

(** ** [get_all_projects] *)

Lemma result_bind_Ok {A B : Type} (a : A) (k : A → result B) :
  Ok a ≫= k = k a.
Proof. reflexivity. Qed.

(** The list the projection is applied to, whichever way it was read. *)
Lemma get_all_projects_projection (gl : Gitlab) (debug : bool)
    (raw : list (gmap string pyval)) :
  (projects ← try_except (projects_list_visibility gl)
                         (fun _ => projects_list_all gl);
   match projects with
   | [] => projects_pagination gl 100 1 []
   | _ => Ok projects
   end) = Ok raw →
  if forallb project_complete raw
  then ∃ projects, get_all_projects gl debug = Ok projects
                   ∧ Forall2 projects_as raw projects
  else get_all_projects gl debug = Ok [].
Proof.
  intros Hraw.
  pose proof (projection_all_or_nothing project_info project_complete raw
                project_info_complete) as H.
  apply bind_Ok in Hraw as (listed & Hlisted & Hraw).
  unfold get_all_projects. rewrite Hlisted, result_bind_Ok, Hraw, result_bind_Ok.
  destruct (forallb project_complete raw).
  - destruct H as (projects & -> & HF). exists projects. split; [done|].
    eapply Forall2_impl; [exact HF|]. intros x y. by apply project_info_Ok.
  - by destruct (mapM project_info raw).
Qed.

Lemma bulk_listing (gl : Gitlab) (raw : list (gmap string pyval)) :
  projects_list_visibility gl = Ok raw
  ∨ (is_ok (projects_list_visibility gl) = false
     ∧ projects_list_all gl = Ok raw) →
  try_except (projects_list_visibility gl) (fun _ => projects_list_all gl)
  = Ok raw.
Proof.
  intros [->|[H1 ->]]; [done|]. by destruct (projects_list_visibility gl).
Qed.

(** X2: when a bulk listing of the projects (with the visibility filter,
    or without it when the first raises) returns a non-empty list,
    [get_all_projects] returns one projection per listed project, in order,
    if every listed project has [id], [name], [path_with_namespace] and
    [web_url]; if a single one lacks such an attribute it returns the empty
    list. *)
Theorem get_all_projects_all_or_nothing (gl : Gitlab) (debug : bool)
    (raw : list (gmap string pyval)) :
  projects_list_visibility gl = Ok raw
  ∨ (is_ok (projects_list_visibility gl) = false
     ∧ projects_list_all gl = Ok raw) →
  raw ≠ [] →
  if forallb project_complete raw
  then ∃ projects, get_all_projects gl debug = Ok projects
                   ∧ Forall2 projects_as raw projects
  else get_all_projects gl debug = Ok [].
Proof.
  intros Hlisted Hne. apply get_all_projects_projection.
  rewrite (bulk_listing gl raw Hlisted), result_bind_Ok. by destruct raw.
Qed.

Lemma get_all_projects_all_or_nothing_witness :
  ∃ projects,
    get_all_projects Mock.gl false = Ok projects
    ∧ Forall2 projects_as
        [Mock.project_obj 1 "alpha"; Mock.project_obj 2 "beta";
         Mock.project_obj 3 "gamma"] projects.
Proof.
  exact (get_all_projects_all_or_nothing Mock.gl false
           [Mock.project_obj 1 "alpha"; Mock.project_obj 2 "beta";
            Mock.project_obj 3 "gamma"]
           (or_introl eq_refl) ltac:(discriminate)).
Defined.

(** The items of [k] pages from [page] on. *)
Lemma first_pages_from {A : Type} (page_items : Z → list A) (page : Z)
    (k : nat) :
  flat_map (fun i => page_items (page + Z.of_nat i)) (seq 0 (S k))
  = page_items page
    ++ flat_map (fun i => page_items (page + 1 + Z.of_nat i)) (seq 0 k).
Proof.
  change (seq 0 (S k)) with (0%nat :: seq 1 k).
  rewrite <- seq_shift. simpl. rewrite Z.add_0_r. f_equal.
  rewrite flat_map_map. apply flat_map_ext. intros i. f_equal. lia.
Qed.

Lemma projects_pagination_run (gl : Gitlab) (k fuel : nat) (page : Z)
    (acc : list (gmap string pyval)) :
  1 ≤ page ≤ 100 →
  page + Z.of_nat k ≤ 101 →
  101 - page ≤ Z.of_nat fuel →
  (∀ i, (i < k)%nat → project_page gl (page + Z.of_nat i) ≠ []) →
  projects_pagination gl fuel page acc
  = let projects :=
      acc ++ flat_map (fun i => project_page gl (page + Z.of_nat i)) (seq 0 k) in
    if page + Z.of_nat k =? 101 then Ok projects
    else projects_pagination gl (fuel - k) (page + Z.of_nat k) projects.
Proof.
  revert fuel page acc.
  induction k as [|k IH]; intros fuel page acc Hpage Hk Hfuel Hpages.
  - simpl. rewrite app_nil_r, Z.add_0_r, Nat.sub_0_r.
    by assert ((page =? 101) = false) as -> by lia.
  - destruct fuel as [|fuel]; [lia|].
    rewrite first_pages_from.
    pose proof (Hpages 0%nat ltac:(lia)) as H0. rewrite Z.add_0_r in H0.
    unfold project_page in H0 |- *. simpl projects_pagination.
    destruct (projects_list_page gl page 100) as [[|p batch]|e]; try done.
    cbn -[projects_pagination Z.add Z.of_nat seq flat_map].
    destruct (page + 1 >? 100) eqn:Hlast.
    + assert (k = 0%nat) as -> by lia. simpl.
      change (Z.of_nat 1) with 1.
      assert ((page + 1 =? 101) = true) as -> by lia. by rewrite app_nil_r.
    + rewrite (IH fuel (page + 1)); [| lia | lia | lia |].
      * cbn zeta. rewrite <- app_assoc.
        replace (page + 1 + Z.of_nat k) with (page + Z.of_nat (S k)) by lia.
        replace (S fuel - S k)%nat with (fuel - k)%nat by lia. done.
      * intros i Hi. specialize (Hpages (S i) ltac:(lia)).
        replace (page + 1 + Z.of_nat i) with (page + Z.of_nat (S i)) by lia.
        exact Hpages.
Qed.

(** X3: when the bulk listing returns nothing, the projects are read page
    by page from page 1: if the pages 1 to [k] hold projects and page
    [k + 1] is empty, or [k] is 100, the projects enumerated are those of
    the pages 1 to [k], in order, and no further page counts; they are
    projected all or none as for a bulk listing. *)
Theorem get_all_projects_pagination (gl : Gitlab) (debug : bool) (k : nat) :
  projects_list_visibility gl = Ok []
  ∨ (is_ok (projects_list_visibility gl) = false
     ∧ projects_list_all gl = Ok []) →
  (k ≤ 100)%nat →
  (∀ i, (i < k)%nat → project_page gl (Z.of_nat i + 1) ≠ []) →
  k = 100%nat ∨ projects_list_page gl (Z.of_nat k + 1) 100 = Ok [] →
  projects_pagination gl 100 1 [] = Ok (first_pages (project_page gl) k)
  ∧ if forallb project_complete (first_pages (project_page gl) k)
    then ∃ projects,
           get_all_projects gl debug = Ok projects
           ∧ Forall2 projects_as (first_pages (project_page gl) k) projects
    else get_all_projects gl debug = Ok [].
Proof.
  intros Hlisted%bulk_listing Hk Hpages Hstop.
  assert (Hrun : projects_pagination gl 100 1 []
                 = Ok (first_pages (project_page gl) k)).
  { rewrite (projects_pagination_run gl k 100 1 []); [| lia | lia | lia |].
    - cbn zeta. unfold first_pages. simpl app.
      erewrite (flat_map_ext _ (fun i => project_page gl (Z.of_nat i + 1)));
        [|intros i; f_equal; lia].
      destruct Hstop as [->|Hempty]; [done|].
      destruct (1 + Z.of_nat k =? 101) eqn:Hcap; [done|].
      destruct (100 - k)%nat as [|fuel] eqn:Hfuel; [lia|].
      simpl. replace (1 + Z.of_nat k) with (Z.of_nat k + 1) by lia.
      by rewrite Hempty.
    - intros i Hi. replace (1 + Z.of_nat i) with (Z.of_nat i + 1) by lia.
      by apply Hpages. }
  split; [exact Hrun|].
  apply get_all_projects_projection. by rewrite Hlisted, result_bind_Ok.
Qed.

Lemma get_all_projects_pagination_witness :
  projects_pagination (Paged.gl 0) 100 1 []
  = Ok [Mock.project_obj 1 "alpha"; Mock.project_obj 2 "beta";
        Mock.project_obj 3 "gamma"]
  ∧ ∃ projects, get_all_projects (Paged.gl 0) false = Ok projects
                ∧ length projects = 3%nat.
Proof.
  destruct (get_all_projects_pagination (Paged.gl 0) false 2) as [Hrun Hall].
  - right. split; reflexivity.
  - lia.
  - intros i Hi.
    destruct i as [|[|i]]; [discriminate|discriminate|lia].
  - right. reflexivity.
  - split; [exact Hrun|].
    destruct Hall as (projects & Hp & HF).
    exists projects. split; [exact Hp|].
    apply Forall2_length in HF. symmetry. exact HF.
Defined.

(** X4: a page that cannot be read during the pagination of the projects
    discards the pages already read: [get_all_projects] returns the empty
    list. The same holds when both bulk listings raise. *)
Theorem get_all_projects_failure_is_empty (gl : Gitlab) (debug : bool)
    (k : nat) :
  (is_ok (projects_list_visibility gl) = false
   ∧ is_ok (projects_list_all gl) = false)
  ∨ ((projects_list_visibility gl = Ok []
      ∨ (is_ok (projects_list_visibility gl) = false
         ∧ projects_list_all gl = Ok []))
     ∧ (k < 100)%nat
     ∧ (∀ i, (i < k)%nat → project_page gl (Z.of_nat i + 1) ≠ [])
     ∧ is_ok (projects_list_page gl (Z.of_nat k + 1) 100) = false) →
  get_all_projects gl debug = Ok [].
Proof.
  unfold get_all_projects.
  intros [[H1 H2]|(Hlisted%bulk_listing & Hk & Hpages & Hbroken)].
  - destruct (projects_list_visibility gl); [done|].
    unfold try_except at 2. by destruct (projects_list_all gl).
  - rewrite Hlisted, result_bind_Ok.
    rewrite (projects_pagination_run gl k 100 1 []); [| lia | lia | lia |].
    + cbn zeta.
      assert ((1 + Z.of_nat k =? 101) = false) as -> by lia.
      destruct (100 - k)%nat as [|fuel] eqn:Hfuel; [lia|].
      simpl. replace (1 + Z.of_nat k) with (Z.of_nat k + 1) by lia.
      by destruct (projects_list_page gl (Z.of_nat k + 1) 100).
    + intros i Hi. replace (1 + Z.of_nat i) with (Z.of_nat i + 1) by lia.
      by apply Hpages.
Qed.

Lemma get_all_projects_failure_is_empty_witness :
  project_page (Paged.gl 2) 1 ≠ []
  ∧ get_all_projects (Paged.gl 2) false = Ok [].
Proof.
  split; [discriminate|].
  apply (get_all_projects_failure_is_empty (Paged.gl 2) false 1).
  right. split; [right; split; reflexivity|]. split; [lia|].
  split; [|reflexivity].
  intros i Hi. destruct i as [|i]; [discriminate|lia].
Defined.

(** ** The enumeration of the users *)

(** X5: [get_user_batch] returns one projection per user of the page, in
    order, when the page is served and every user on it has [id],
    [username] and [name]; when the page cannot be read, or a single user
    lacks such an attribute, it returns the empty list. It never raises. *)
Theorem get_user_batch_all_or_nothing (gl : Gitlab) (page per_page : Z)
    (debug : bool) :
  match users_list_page gl page per_page with
  | Ok batch =>
      if forallb user_complete (page_users batch)
      then ∃ users, get_user_batch gl page per_page debug = Ok users
                    ∧ Forall2 users_as (page_users batch) users
      else get_user_batch gl page per_page debug = Ok []
  | Raise _ => get_user_batch gl page per_page debug = Ok []
  end.
Proof.
  unfold get_user_batch.
  destruct (users_list_page gl page per_page) as [batch|e]; [|done].
  rewrite result_bind_Ok.
  pose proof (projection_all_or_nothing user_info user_complete
                (page_users batch) user_info_complete) as H.
  destruct (forallb user_complete (page_users batch)).
  - destruct H as (users & -> & HF). exists users. split; [done|].
    eapply Forall2_impl; [exact HF|]. intros x y. by apply user_info_Ok.
  - by destruct (mapM user_info (page_users batch)).
Qed.

Lemma users_pagination_run (gl : Gitlab) (k fuel : nat) (page : Z)
    (acc : list (gmap string pyval)) :
  1 ≤ page ≤ 50 →
  page + Z.of_nat k ≤ 51 →
  51 - page ≤ Z.of_nat fuel →
  (∀ i, (i < k)%nat → user_page gl (page + Z.of_nat i) ≠ []) →
  users_pagination gl fuel page acc
  = let users :=
      acc ++ flat_map (fun i => user_page gl (page + Z.of_nat i)) (seq 0 k) in
    if page + Z.of_nat k =? 51 then users
    else users_pagination gl (fuel - k) (page + Z.of_nat k) users.
Proof.
  revert fuel page acc.
  induction k as [|k IH]; intros fuel page acc Hpage Hk Hfuel Hpages.
  - simpl. rewrite app_nil_r, Z.add_0_r, Nat.sub_0_r.
    by assert ((page =? 51) = false) as -> by lia.
  - destruct fuel as [|fuel]; [lia|].
    rewrite first_pages_from.
    pose proof (Hpages 0%nat ltac:(lia)) as H0. rewrite Z.add_0_r in H0.
    unfold user_page in H0 |- *. simpl users_pagination.
    destruct (users_list_page gl page 100) as [batch|e]; [|done].
    destruct (page_users batch) as [|u batch_users]; [done|].
    cbn -[users_pagination Z.add Z.of_nat seq flat_map].
    destruct (page + 1 >? 50) eqn:Hlast.
    + assert (k = 0%nat) as -> by lia. simpl.
      change (Z.of_nat 1) with 1.
      assert ((page + 1 =? 51) = true) as -> by lia. by rewrite app_nil_r.
    + rewrite (IH fuel (page + 1)); [| lia | lia | lia |].
      * cbn zeta. rewrite <- app_assoc.
        replace (page + 1 + Z.of_nat k) with (page + Z.of_nat (S k)) by lia.
        replace (S fuel - S k)%nat with (fuel - k)%nat by lia. done.
      * intros i Hi. specialize (Hpages (S i) ltac:(lia)).
        replace (page + 1 + Z.of_nat i) with (page + Z.of_nat (S i)) by lia.
        exact Hpages.
Qed.

Lemma _get_all_users_sequential_projection (gl : Gitlab) (debug : bool)
    (raw : list (gmap string pyval)) :
  match users_list_all gl with
  | Ok users => users
  | Raise _ => users_pagination gl 50 1 []
  end = raw →
  if forallb user_complete raw
  then ∃ users, _get_all_users_sequential gl debug = Ok users
                ∧ Forall2 users_as raw users
  else _get_all_users_sequential gl debug = Ok [].
Proof.
  intros Hraw. unfold _get_all_users_sequential. cbv zeta. rewrite Hraw.
  pose proof (projection_all_or_nothing user_info user_complete raw
                user_info_complete) as H.
  destruct (forallb user_complete raw).
  - destruct H as (users & -> & HF). exists users. split; [done|].
    eapply Forall2_impl; [exact HF|]. intros x y. by apply user_info_Ok.
  - by destruct (mapM user_info raw).
Qed.

(** X6: when the bulk listing of the users returns a list,
    [_get_all_users_sequential] returns one projection per listed user, in
    order, if every one has [id], [username] and [name], and the empty list
    if a single one lacks such an attribute. *)
Theorem get_all_users_sequential_bulk (gl : Gitlab) (debug : bool)
    (raw : list (gmap string pyval)) :
  users_list_all gl = Ok raw →
  if forallb user_complete raw
  then ∃ users, _get_all_users_sequential gl debug = Ok users
                ∧ Forall2 users_as raw users
  else _get_all_users_sequential gl debug = Ok [].
Proof.
  intros Hraw. apply _get_all_users_sequential_projection. by rewrite Hraw.
Qed.

Lemma get_all_users_sequential_bulk_witness :
  ∃ users, _get_all_users_sequential Mock.gl false = Ok users
           ∧ Forall2 users_as
               [Mock.user_obj 1 "ada"; Mock.user_obj 2 "grace";
                Mock.user_obj 3 "edsger"] users.
Proof.
  exact (get_all_users_sequential_bulk Mock.gl false
           [Mock.user_obj 1 "ada"; Mock.user_obj 2 "grace";
            Mock.user_obj 3 "edsger"] eq_refl).
Defined.

(** X7: when the bulk listing of the users raises, the users are read page
    by page from page 1, and the pagination ends at the first page that is
    empty or cannot be read, or after page 50: if the pages 1 to [k] hold
    users and page [k + 1] does not, the users of the pages 1 to [k] are
    kept, in order, and projected all or none. *)
Theorem get_all_users_sequential_pagination (gl : Gitlab) (debug : bool)
    (k : nat) :
  is_ok (users_list_all gl) = false →
  (k ≤ 50)%nat →
  (∀ i, (i < k)%nat → user_page gl (Z.of_nat i + 1) ≠ []) →
  k = 50%nat ∨ user_page gl (Z.of_nat k + 1) = [] →
  users_pagination gl 50 1 [] = first_pages (user_page gl) k
  ∧ if forallb user_complete (first_pages (user_page gl) k)
    then ∃ users,
           _get_all_users_sequential gl debug = Ok users
           ∧ Forall2 users_as (first_pages (user_page gl) k) users
    else _get_all_users_sequential gl debug = Ok [].
Proof.
  intros Hbulk Hk Hpages Hstop.
  assert (Hrun : users_pagination gl 50 1 [] = first_pages (user_page gl) k).
  { rewrite (users_pagination_run gl k 50 1 []); [| lia | lia | lia |].
    - cbn zeta. unfold first_pages. simpl app.
      erewrite (flat_map_ext _ (fun i => user_page gl (Z.of_nat i + 1)));
        [|intros i; f_equal; lia].
      destruct Hstop as [->|Hempty]; [done|].
      destruct (1 + Z.of_nat k =? 51) eqn:Hcap; [done|].
      destruct (50 - k)%nat as [|fuel] eqn:Hfuel; [lia|].
      simpl. replace (1 + Z.of_nat k) with (Z.of_nat k + 1) by lia.
      unfold user_page in Hempty.
      destruct (users_list_page gl (Z.of_nat k + 1) 100) as [batch|e]; [|done].
      by rewrite Hempty.
    - intros i Hi. replace (1 + Z.of_nat i) with (Z.of_nat i + 1) by lia.
      by apply Hpages. }
  split; [exact Hrun|].
  apply _get_all_users_sequential_projection.
  destruct (users_list_all gl); [done|]. exact Hrun.
Qed.

Lemma get_all_users_sequential_pagination_witness :
  users_pagination (Paged.gl 2) 50 1 []
  = [Mock.user_obj 1 "ada"; Mock.user_obj 2 "grace"]
  ∧ ∃ users, _get_all_users_sequential (Paged.gl 2) false = Ok users
             ∧ length users = 2%nat.
Proof.
  destruct (get_all_users_sequential_pagination (Paged.gl 2) false 1)
    as [Hrun Hall].
  - reflexivity.
  - lia.
  - intros i Hi. destruct i as [|i]; [discriminate|lia].
  - right. reflexivity.
  - split; [exact Hrun|].
    destruct Hall as (users & Hu & HF).
    exists users. split; [exact Hu|].
    apply Forall2_length in HF. symmetry. exact HF.
Defined.

Section UsersFanOut.
Context (W : World).

Lemma collect_users_flat_map (completed : list (result (list User))) :
  collect_users completed
  = flat_map (fun future => match future with
                            | Ok batch_users => batch_users
                            | Raise _ => []
                            end) completed.
Proof.
  unfold collect_users.
  enough (∀ acc : list User,
    fold_left (fun all_users (future : result (list User)) =>
                 match future with
                 | Ok batch_users => all_users ++ batch_users
                 | Raise _ => all_users
                 end) completed acc
    = acc ++ flat_map (fun future => match future with
                                     | Ok batch_users => batch_users
                                     | Raise _ => []
                                     end) completed) as H by apply H.
  induction completed as [|[l|e] completed IH]; intros acc; simpl.
  - by rewrite app_nil_r.
  - by rewrite IH, app_assoc.
  - by rewrite IH.
Qed.

(** X8: [get_all_users] never raises, and what it returns is either the
    result of [_get_all_users_sequential] or a non-empty list made, up to
    order, of the batches of the pages 1 to the number of pages computed
    from the first page. *)
Theorem get_all_users_parallel_or_sequential (gl : Gitlab) (debug : bool)
    (threads : Z) :
  ∃ users,
    get_all_users W gl debug threads = Ok users
    ∧ (_get_all_users_sequential gl debug = Ok users
       ∨ (users ≠ []
          ∧ ∃ first_page total_pages,
              users_list_page gl 1 20 = Ok first_page
              ∧ users_total_pages first_page = Ok total_pages
              ∧ users
                ≡ₚ flat_map (fun page =>
                               match get_user_batch gl page 100 debug with
                               | Ok batch_users => batch_users
                               | Raise _ => []
                               end) (py_range 1 (total_pages + 1)))).
Proof.
  destruct (_get_all_users_sequential_never_raises gl debug) as [seq_users Hseq].
  unfold get_all_users.
  destruct (users_list_page gl 1 20) as [first_page|e] eqn:Hfirst;
    [|exists seq_users; rewrite Hseq; split; [done|by left]].
  rewrite result_bind_Ok.
  destruct (users_total_pages first_page) as [total_pages|e] eqn:Hpages;
    [|exists seq_users; simpl; rewrite Hseq; split; [done|by left]].
  rewrite result_bind_Ok.
  destruct (if threads <=? 0 then default_workers W 16 2 else Ok threads)
    as [max_workers|e];
    [|exists seq_users; simpl; rewrite Hseq; split; [done|by left]].
  rewrite result_bind_Ok.
  destruct (ThreadPoolExecutor max_workers) as [[]|e];
    [|exists seq_users; simpl; rewrite Hseq; split; [done|by left]].
  rewrite result_bind_Ok. cbv zeta.
  destruct (collect_users (as_completed W (user_batch_futures gl debug total_pages)))
    as [|u users] eqn:Hall.
  - exists seq_users. rewrite Hseq. split; [done|by left].
  - exists (u :: users). split; [done|]. right. split; [done|].
    exists first_page, total_pages. split; [done|]. split; [done|].
    rewrite <- Hall, collect_users_flat_map.
    rewrite (Permutation_flat_map _ (as_completed_perm W _ _)).
    unfold user_batch_futures. by rewrite flat_map_map.
Qed.

End UsersFanOut.

(** ** The loop over the commits of a project *)

Section CommitsLoop.
Context (W : World) (project : ProjectHandle) (info : Project).

Lemma commit_data_has_id (commit : gmap string pyval) (data : CommitRecord) :
  commit_data W project info commit = Ok data →
  ∃ id, getattr commit "id" = Ok id.
Proof.
  unfold commit_data. intros H. apply bind_Ok in H as (id & Hid & _). eauto.
Qed.

Lemma commit_data_needs_id (commit : gmap string pyval) :
  commit !! "id" = None → is_ok (commit_data W project info commit) = false.
Proof. unfold commit_data, getattr. by intros ->. Qed.

Lemma commits_loop_debug (commits : list (gmap string pyval))
    (project_commits : list CommitRecord) :
  commits_loop W project info true project_commits commits
  = commits_loop W project info false project_commits commits.
Proof.
  revert project_commits.
  induction commits as [|c commits IH]; intros project_commits; simpl; [done|].
  unfold commit_step.
  destruct (commit_data W project info c) as [data|e] eqn:Hdata.
  - destruct (commit_data_has_id c data Hdata) as [id Hid].
    destruct (getattr c "short_id"); [apply IH|]. rewrite Hid. apply IH.
  - destruct (getattr c "id"); [apply IH|done].
Qed.

(** As long as the commits have an [id], each one adds its record or is
    skipped. *)
Lemma commits_loop_recorded (debug : bool)
    (commits : list (gmap string pyval))
    (project_commits : list CommitRecord) :
  Forall (fun commit => is_Some (commit !! "id")) commits →
  commits_loop W project info debug project_commits commits
  = project_commits ++ recorded W project info commits.
Proof.
  destruct debug; [rewrite commits_loop_debug|];
    (revert project_commits;
     induction commits as [|c commits IH]; intros project_commits Hid; simpl;
       [by rewrite app_nil_r|];
     inversion Hid as [|? ? [id Hc] Hrest]; subst;
     unfold commit_step, recorded; simpl;
     destruct (commit_data W project info c) as [data|e];
       [rewrite IH by done; by rewrite <- app_assoc|];
     unfold getattr; rewrite Hc; by apply IH).
Qed.

(** A commit without [id] ends the loop. *)
Lemma commits_loop_truncated (debug : bool)
    (before after : list (gmap string pyval)) (commit : gmap string pyval)
    (project_commits : list CommitRecord) :
  Forall (fun commit => is_Some (commit !! "id")) before →
  commit !! "id" = None →
  commits_loop W project info debug project_commits (before ++ commit :: after)
  = project_commits ++ recorded W project info before.
Proof.
  intros Hbefore Hcommit.
  destruct debug; [rewrite commits_loop_debug|];
    (revert project_commits;
     induction before as [|c before IH]; intros project_commits; simpl;
       [unfold commit_step;
        pose proof (commit_data_needs_id commit Hcommit) as Hdata;
        destruct (commit_data W project info commit); [done|];
        unfold getattr; rewrite Hcommit; by rewrite app_nil_r|];
     inversion Hbefore as [|? ? [id Hc] Hrest]; subst;
     unfold commit_step, recorded; simpl;
     destruct (commit_data W project info c) as [data|e];
       [rewrite IH by done; by rewrite <- app_assoc|];
     unfold getattr; rewrite Hc; by apply IH).
Qed.

End CommitsLoop.

Section ProjectCommits.
Context (W : World).

(** The debug flag does not change what [get_project_commits] returns:
    the attributes read only for printing never remove or add a record. *)
Lemma get_project_commits_debug (info : Project) (gl : Gitlab)
    (start_date end_date : datetime) :
  get_project_commits W info gl start_date end_date true
  = get_project_commits W info gl start_date end_date false.
Proof.
  unfold get_project_commits.
  destruct (projects_get gl (p_id info)); [|done].
  by rewrite commits_loop_debug.
Qed.

(** X9: when every commit listed for a project has an [id],
    [get_project_commits] returns, in the order of the listing, the record
    of each commit whose record can be built: a commit whose details
    cannot be fetched or that lacks an attribute is skipped and the others
    are kept. *)
Theorem get_project_commits_skips_failures (info : Project) (gl : Gitlab)
    (project : ProjectHandle) (start_date end_date : datetime)
    (debug : bool) :
  projects_get gl (p_id info) = Ok project →
  Forall (fun commit => is_Some (commit !! "id"))
         (list_commits W project start_date end_date) →
  get_project_commits W info gl start_date end_date debug
  = Ok (recorded W project info (list_commits W project start_date end_date)).
Proof.
  intros Hget Hid. unfold get_project_commits. rewrite Hget.
  by rewrite commits_loop_recorded.
Qed.

(** X10: a listed commit without [id] ends the loop over the commits of
    the project: the records of the commits before it are returned and the
    commits after it are not processed. *)
Theorem get_project_commits_stops_without_id (info : Project) (gl : Gitlab)
    (project : ProjectHandle) (start_date end_date : datetime)
    (debug : bool) (before after : list (gmap string pyval))
    (commit : gmap string pyval) :
  projects_get gl (p_id info) = Ok project →
  list_commits W project start_date end_date = before ++ commit :: after →
  Forall (fun commit => is_Some (commit !! "id")) before →
  commit !! "id" = None →
  get_project_commits W info gl start_date end_date debug
  = Ok (recorded W project info before).
Proof.
  intros Hget Hlist Hbefore Hcommit. unfold get_project_commits.
  rewrite Hget, Hlist. by rewrite commits_loop_truncated.
Qed.

End ProjectCommits.

Lemma get_project_commits_skips_failures_witness :
  ∃ project_commits,
    get_project_commits Mock.world (Mock.info 1 "alpha")
      (Partial.gl [Mock.commit_a1; Mock.commit_c3; Mock.commit_a2])
      Partial.today_start Partial.today_end false = Ok project_commits
    ∧ map title project_commits = [PyStr "Add parser"; PyStr "Fix typo"].
Proof.
  eexists. split.
  - apply (get_project_commits_skips_failures Mock.world (Mock.info 1 "alpha")
             (Partial.gl [Mock.commit_a1; Mock.commit_c3; Mock.commit_a2])
             (Partial.project [Mock.commit_a1; Mock.commit_c3; Mock.commit_a2])).
    + reflexivity.
    + repeat constructor; eexists; reflexivity.
  - vm_compute. reflexivity.
Defined.

Lemma get_project_commits_stops_without_id_witness :
  ∃ project_commits,
    get_project_commits Mock.world (Mock.info 1 "alpha")
      (Partial.gl [Mock.commit_a1; Partial.commit_without_id; Mock.commit_a2])
      Partial.today_start Partial.today_end false = Ok project_commits
    ∧ map title project_commits = [PyStr "Add parser"].
Proof.
  eexists. split.
  - apply (get_project_commits_stops_without_id Mock.world
             (Mock.info 1 "alpha")
             (Partial.gl [Mock.commit_a1; Partial.commit_without_id;
                          Mock.commit_a2])
             (Partial.project [Mock.commit_a1; Partial.commit_without_id;
                               Mock.commit_a2])
             Partial.today_start Partial.today_end false
             [Mock.commit_a1] [Mock.commit_a2] Partial.commit_without_id).
    + reflexivity.
    + reflexivity.
    + repeat constructor; eexists; reflexivity.
    + reflexivity.
  - vm_compute. reflexivity.
Defined.

(** ** The commits of a report *)

Section ReportCommits.
Context (W : World).

(** Every commit of a report was built for an enumerated project from a
    commit listed for that project within the window of the run. *)
Lemma report_record_origin (url token : string) (days : Z) (debug : bool)
    (threads : Z) (report : Report) :
  collect_report W url token days debug threads = Ok report →
  ∃ gl projects start_date end_date,
    get_gitlab_client W url token debug = Ok gl
    ∧ get_all_projects gl debug = Ok projects
    ∧ commit_window W days = Ok (start_date, end_date)
    ∧ ∀ record, record ∈ commits report →
        ∃ project handle commit,
          project ∈ projects
          ∧ projects_get gl (p_id project) = Ok handle
          ∧ commit ∈ list_commits W handle start_date end_date
          ∧ commit_data W handle project commit = Ok record.
Proof.
  intros Hrun.
  apply collect_report_Ok in Hrun
    as (gl & projects & users & Hgl & Hp & Hu & Hc & Hmeta).
  destruct (get_today_commits_permutation _ _ _ _ _ _ _ Hc)
    as (start_date & end_date & Hwin & Hperm).
  exists gl, projects, start_date, end_date.
  split; [done|]. split; [done|]. split; [done|].
  intros record Hrecord. rewrite Hperm in Hrecord.
  apply list_elem_of_In, in_flat_map in Hrecord as (project & Hproject & Hin).
  apply list_elem_of_In in Hproject, Hin.
  unfold fetched_commits, get_project_commits in Hin.
  destruct (projects_get gl (p_id project)) as [handle|e] eqn:Hhandle;
    [|by apply elem_of_nil in Hin].
  apply commits_loop_origin in Hin as [Hin|(commit & Hlisted & Hdata)];
    [by apply elem_of_nil in Hin|].
  by exists project, handle, commit.
Qed.

Lemma commit_data_fields (handle : ProjectHandle) (info : Project)
    (commit : gmap string pyval) (record : CommitRecord) :
  commit_data W handle info commit = Ok record →
  project_path record = p_path_with_namespace info
  ∧ commit !! "title" = Some (title record)
  ∧ commit !! "message" = Some (message record)
  ∧ commit !! "author_name" = Some (author_name record)
  ∧ commit !! "author_email" = Some (author_email record)
  ∧ ∃ id full_commit,
      commit !! "id" = Some id
      ∧ commits_get handle id = Ok full_commit
      ∧ diff record = match commit_diff full_commit with
                      | Ok raw_diff => filter_diff_data raw_diff
                      | Raise _ => []
                      end.
Proof.
  unfold commit_data. intros H.
  apply bind_Ok in H as (id & Hid%hasattr_getattr & H).
  apply bind_Ok in H as (full_commit & Hfull & H).
  apply bind_Ok in H as (v & Hv & H).
  apply bind_Ok in H as (t & Ht%hasattr_getattr & H).
  apply bind_Ok in H as (m & Hm%hasattr_getattr & H).
  apply bind_Ok in H as (an & Han%hasattr_getattr & H).
  apply bind_Ok in H as (ae & Hae%hasattr_getattr & [= <-]). simpl.
  repeat split; try done. by exists id, full_commit.
Qed.

(** X11: in a report of a run that did not fail, every commit is the
    record built from a commit listed, within the window of the run, for
    one of the projects enumerated: it carries as [project_path] the
    [path_with_namespace] of that project, and its title, message and
    author are the attributes of that listed commit. *)
Theorem report_commits_belong_to_projects (url token : string) (days : Z)
    (debug : bool) (threads : Z) (report : Report) :
  get_commits_data W url token days debug threads = Ok report →
  metadata report !! "error" = None →
  ∃ gl projects start_date end_date,
    get_gitlab_client W url token debug = Ok gl
    ∧ get_all_projects gl debug = Ok projects
    ∧ commit_window W days = Ok (start_date, end_date)
    ∧ Forall (fun record =>
                ∃ project handle (commit : gmap string pyval),
                  project ∈ projects
                  ∧ projects_get gl (p_id project) = Ok handle
                  ∧ commit ∈ list_commits W handle start_date end_date
                  ∧ commit_data W handle project commit = Ok record
                  ∧ project_path record = p_path_with_namespace project
                  ∧ commit !! "title" = Some (title record)
                  ∧ commit !! "message" = Some (message record)
                  ∧ commit !! "author_name" = Some (author_name record)
                  ∧ commit !! "author_email" = Some (author_email record))
             (commits report).
Proof.
  intros Hrun Hok. apply get_commits_data_success in Hrun; [|done].
  destruct (report_record_origin _ _ _ _ _ _ Hrun)
    as (gl & projects & start_date & end_date & Hgl & Hp & Hwin & Horigin).
  exists gl, projects, start_date, end_date.
  split; [done|]. split; [done|]. split; [done|].
  apply Forall_forall. intros record Hrecord.
  destruct (Horigin record Hrecord)
    as (project & handle & commit & Hproject & Hhandle & Hlisted & Hdata).
  destruct (commit_data_fields _ _ _ _ Hdata)
    as (Hpath & Ht & Hm & Han & Hae & _).
  by exists project, handle, commit.
Qed.

Lemma collect_report_diff_entries (url token : string) (days : Z)
    (debug : bool) (threads : Z) (report : Report) :
  collect_report W url token days debug threads = Ok report →
  Forall (fun record =>
            Forall (fun entry : gmap string pyval =>
                      dom entry ⊆ diff_entry_keys
                      ∧ is_Some (entry !! "new_path")
                      ∧ is_Some (entry !! "old_path"))
                   (diff record))
         (commits report).
Proof.
  intros Hrun. apply Forall_forall. intros record Hrecord.
  destruct (report_record_origin _ _ _ _ _ _ Hrun)
    as (gl & projects & start_date & end_date & _ & _ & _ & Horigin).
  destruct (Horigin record Hrecord)
    as (project & handle & commit & _ & _ & _ & Hdata).
  apply commit_data_fields in Hdata
    as (_ & _ & _ & _ & _ & id & full_commit & _ & _ & ->).
  destruct (commit_diff full_commit) as [raw_diff|e]; [|constructor].
  rewrite filter_diff_data_map. apply Forall_forall. intros entry Hentry.
  apply list_elem_of_fmap in Hentry as (diff_item & -> & _).
  split; [apply filter_diff_item_dom|].
  rewrite !filter_diff_item_lookup. simpl. split; eauto.
Qed.

(** X12: in a report of a run that did not fail, every entry of the diff
    of every commit has [new_path] and [old_path] and no key other than
    [new_path], [old_path] and [new_file]. *)
Theorem report_diff_entries_are_filtered (url token : string) (days : Z)
    (debug : bool) (threads : Z) (report : Report) :
  get_commits_data W url token days debug threads = Ok report →
  metadata report !! "error" = None →
  Forall (fun record =>
            Forall (fun entry : gmap string pyval =>
                      dom entry ⊆ diff_entry_keys
                      ∧ is_Some (entry !! "new_path")
                      ∧ is_Some (entry !! "old_path"))
                   (diff record))
         (commits report).
Proof.
  intros Hrun Hok. apply get_commits_data_success in Hrun; [|done].
  by apply (collect_report_diff_entries url token days debug threads).
Qed.

End ReportCommits.

Lemma report_commits_belong_to_projects_witness :
  get_commits_data Mock.world Mock.url "glpat-admin" 1 false 0 = Ok Mock.report
  ∧ ∃ gl projects start_date end_date,
      get_gitlab_client Mock.world Mock.url "glpat-admin" false = Ok gl
      ∧ get_all_projects gl false = Ok projects
      ∧ commit_window Mock.world 1 = Ok (start_date, end_date)
      ∧ Forall (fun record =>
                  ∃ project handle (commit : gmap string pyval),
                    project ∈ projects
                    ∧ projects_get gl (p_id project) = Ok handle
                    ∧ commit ∈ list_commits Mock.world handle start_date
                                 end_date
                    ∧ commit_data Mock.world handle project commit = Ok record
                    ∧ project_path record = p_path_with_namespace project
                    ∧ commit !! "title" = Some (title record)
                    ∧ commit !! "message" = Some (message record)
                    ∧ commit !! "author_name" = Some (author_name record)
                    ∧ commit !! "author_email" = Some (author_email record))
               (commits Mock.report).
Proof.
  assert (Hrun : get_commits_data Mock.world Mock.url "glpat-admin" 1 false 0
                 = Ok Mock.report) by (vm_compute; reflexivity).
  split; [exact Hrun|].
  exact (report_commits_belong_to_projects Mock.world Mock.url "glpat-admin"
           1 false 0 Mock.report Hrun eq_refl).
Defined.

Lemma report_diff_entries_are_filtered_witness :
  get_commits_data Mock.world Mock.url "glpat-admin" 1 false 0 = Ok Mock.report
  ∧ Forall (fun record =>
              Forall (fun entry : gmap string pyval =>
                        dom entry ⊆ diff_entry_keys
                        ∧ is_Some (entry !! "new_path")
                        ∧ is_Some (entry !! "old_path"))
                     (diff record))
           (commits Mock.report).
Proof.
  assert (Hrun : get_commits_data Mock.world Mock.url "glpat-admin" 1 false 0
                 = Ok Mock.report) by (vm_compute; reflexivity).
  split; [exact Hrun|].
  exact (report_diff_entries_are_filtered Mock.world Mock.url "glpat-admin"
           1 false 0 Mock.report Hrun eq_refl).
Defined.

(** ** The worker pool and the window *)

Section PoolAndWindow.
Context (W : World).

(** X13: with no number of threads given and a number of CPUs that
    [os.cpu_count()] cannot tell, [get_today_commits] raises, although the
    enumeration of the users falls back to its sequential form: the run
    returns the failure report even though the authentication succeeded. *)
Theorem unknown_cpu_count_fails_the_run (url token : string) (days : Z)
    (debug : bool) (threads : Z) (gl : Gitlab) :
  get_gitlab_client W url token debug = Ok gl →
  threads ≤ 0 →
  cpu_count W = None →
  is_ok (commit_window W days) = true →
  get_all_users W gl debug threads = _get_all_users_sequential gl debug
  ∧ get_commits_data W url token days debug threads
    = Ok (error_report W
            (Exn "TypeError"
               "unsupported operand type(s) for *: 'NoneType' and 'int'")).
Proof.
  intros Hgl Hthreads Hcpu Hwin.
  assert ((threads <=? 0) = true) as Hle by lia.
  destruct (_get_all_users_sequential_never_raises gl debug) as [seq_users Hseq].
  assert (Husers : get_all_users W gl debug threads
                   = _get_all_users_sequential gl debug).
  { unfold get_all_users.
    destruct (users_list_page gl 1 20) as [first_page|e];
      [|by rewrite Hseq].
    rewrite result_bind_Ok.
    destruct (users_total_pages first_page) as [total_pages|e];
      [|by rewrite Hseq].
    rewrite result_bind_Ok, Hle. unfold default_workers. rewrite Hcpu.
    by rewrite Hseq. }
  split; [exact Husers|].
  unfold get_commits_data, collect_report. rewrite Hgl, result_bind_Ok.
  destruct (get_all_projects_never_raises gl debug) as [projects ->].
  rewrite result_bind_Ok, Husers, Hseq, result_bind_Ok.
  unfold get_today_commits.
  destruct (commit_window W days) as [[start_date end_date]|e]; [|done].
  rewrite result_bind_Ok, Hle. unfold default_workers. by rewrite Hcpu.
Qed.

(** X14: the window computed from a clock reading with its fields in
    range is in order exactly when [days >= 1]: for [days <= 0] its start
    lies after its end, so that no date is within it. *)
Theorem commit_window_ordered (days : Z) (start_date end_date : datetime) :
  wallclock_valid (now_window W) →
  commit_window W days = Ok (start_date, end_date) →
  datetime_le start_date end_date = Ok (1 <=? days)
  ∧ (days ≤ 0 → ∀ d, datetime_le start_date d = Ok true →
                     datetime_le d end_date = Ok false).
Proof.
  intros (Hord & Hh & Hm & Hs & Hus) Hwin.
  unfold commit_window, timedelta_days, datetime_sub in Hwin.
  destruct (Z.abs (days - 1) >? 999999999); [done|].
  rewrite result_bind_Ok in Hwin.
  destruct ((0 <? _) && _) eqn:Hrange; [|done].
  injection Hwin as <- <-.
  unfold datetime_le, wall_micros, replace_midnight, datetime_now; simpl.
  split.
  - f_equal. destruct (1 <=? days) eqn:Hdays; lia.
  - intros Hdays d. destruct (dt_utcoffset d); [done|].
    intros [= Hle]. f_equal. lia.
Qed.

End PoolAndWindow.

Lemma unknown_cpu_count_fails_the_run_witness :
  ∃ gl,
    get_gitlab_client Variants.headless Mock.url "glpat-admin" false = Ok gl
    ∧ get_all_users Variants.headless gl false 0
      = _get_all_users_sequential gl false
    ∧ get_commits_data Variants.headless Mock.url "glpat-admin" 1 false 0
      = Ok (error_report Variants.headless
              (Exn "TypeError"
                 "unsupported operand type(s) for *: 'NoneType' and 'int'")).
Proof.
  exists Mock.gl. split; [reflexivity|].
  apply (unknown_cpu_count_fails_the_run Variants.headless Mock.url
           "glpat-admin" 1 false 0 Mock.gl).
  - reflexivity.
  - lia.
  - reflexivity.
  - reflexivity.
Defined.

Lemma commit_window_ordered_witness :
  ∃ start_date end_date,
    commit_window Mock.world 0 = Ok (start_date, end_date)
    ∧ datetime_le start_date end_date = Ok false.
Proof.
  eexists _, _. split; [reflexivity|].
  refine (proj1 (commit_window_ordered Mock.world 0 _ _ _ eq_refl)).
  unfold wallclock_valid. vm_compute. repeat split; discriminate.
Defined.

(** ** Dates with an offset in the manual pagination *)

Section OffsetDates.
Context (W : World) (project : ProjectHandle).
Context (start_date end_date : datetime).

Lemma manual_pagination_step (fuel : nat) (page : Z)
    (commits : list (gmap string pyval)) :
  manual_pagination W project start_date end_date (S fuel) page commits
  = match commits_list_page project page 100 with
    | Raise _ => commits
    | Ok [] => commits
    | Ok batch =>
        match filter_batch W start_date end_date commits batch with
        | (commits, Some _) => commits
        | (commits, None) =>
            if page + 1 >? 10 then commits
            else manual_pagination W project start_date end_date fuel
                   (page + 1) commits
        end
    end.
Proof. reflexivity. Qed.

(** The window is made of naive dates, so that a date with an offset
    cannot be compared with its start. *)
Lemma in_window_offset (commit : gmap string pyval) (s : string)
    (commit_date : datetime) (offset : Z) :
  dt_utcoffset start_date = None →
  commit !! "created_at" = Some (PyStr s) →
  fromisoformat W (str_replace_Z s) = Ok commit_date →
  dt_utcoffset commit_date = Some offset →
  in_window W start_date end_date commit
  = Raise (Exn "TypeError"
             "can't compare offset-naive and offset-aware datetimes").
Proof.
  intros Hnaive Hcreated Hparse Haware.
  unfold in_window, hasattr, getattr. rewrite Hcreated, !result_bind_Ok.
  rewrite Hparse, result_bind_Ok. unfold datetime_le.
  by rewrite Hnaive, Haware.
Qed.

(** X15: in the manual pagination, a commit whose [created_at] parses to a
    date with a UTC offset cannot be compared with the bounds of the
    window, which [datetime.now()] gives without offset: the comparison
    raises and the pagination ends. When such a commit is the first of
    page 1 and both filtered listings raise, no commit is selected and
    [get_project_commits] returns the empty list. *)
Theorem offset_date_ends_manual_pagination (gl : Gitlab) (info : Project)
    (debug : bool) (commit : gmap string pyval)
    (rest : list (gmap string pyval)) (s : string) (commit_date : datetime)
    (offset : Z) :
  dt_utcoffset start_date = None →
  projects_get gl (p_id info) = Ok project →
  is_ok (commits_list_since_until project (isoformat W start_date)
           (isoformat W end_date)) = false →
  is_ok (commits_list_since project (isoformat W start_date)) = false →
  commits_list_page project 1 100 = Ok (commit :: rest) →
  commit !! "created_at" = Some (PyStr s) →
  fromisoformat W (str_replace_Z s) = Ok commit_date →
  dt_utcoffset commit_date = Some offset →
  list_commits W project start_date end_date = []
  ∧ get_project_commits W info gl start_date end_date debug = Ok [].
Proof.
  intros Hnaive Hget H1 H2 Hpage Hcreated Hparse Haware.
  assert (Hlist : list_commits W project start_date end_date = []).
  { unfold list_commits.
    destruct (commits_list_since_until project _ _); [done|].
    destruct (commits_list_since project _); [done|].
    rewrite manual_pagination_step, Hpage. simpl filter_batch.
    by rewrite (in_window_offset commit s commit_date offset). }
  split; [exact Hlist|].
  unfold get_project_commits. by rewrite Hget, Hlist.
Qed.

End OffsetDates.

Lemma offset_date_ends_manual_pagination_witness :
  commits_list_page Variants.offset_project 1 100
  = Ok [Mock.commit_a1; Mock.commit_c1]
  ∧ within_window Mock.world Partial.today_start Partial.today_end
      Mock.commit_c1
  ∧ list_commits Mock.world Variants.offset_project Partial.today_start
      Partial.today_end = []
  ∧ get_project_commits Mock.world (Mock.info 1 "alpha") Variants.offset_gl
      Partial.today_start Partial.today_end false = Ok [].
Proof.
  split; [reflexivity|]. split.
  - eexists _, _. repeat split; vm_compute; reflexivity.
  - eapply (offset_date_ends_manual_pagination Mock.world
              Variants.offset_project Partial.today_start Partial.today_end
              Variants.offset_gl (Mock.info 1 "alpha") false Mock.commit_a1
              [Mock.commit_c1] "2025-06-15T09:12:44.000+02:00");
      reflexivity.
Defined.

(** ** The debug flag *)

Section Debug.
Context (W : World).

Lemma get_today_commits_debug (gl : Gitlab) (projects : list Project)
    (days threads : Z) :
  get_today_commits W gl projects days true threads
  = get_today_commits W gl projects days false threads.
Proof.
  unfold get_today_commits.
  destruct (commit_window W days) as [[start_date end_date]|e]; [|done].
  rewrite !result_bind_Ok.
  destruct (if threads <=? 0 then default_workers W 32 4 else Ok threads);
    [|done].
  rewrite !result_bind_Ok.
  destruct (ThreadPoolExecutor _) as [[]|e]; [|done].
  rewrite !result_bind_Ok. cbv zeta. do 3 f_equal.
  apply map_ext. intros project. by rewrite get_project_commits_debug.
Qed.

(** X16: when the authenticated user has a [username], the debug flag does
    not change the report [get_commits_data] returns: the attributes read
    only to be printed never add, remove or change anything. *)
Theorem get_commits_data_debug (url token : string) (days threads : Z) :
  (∀ gl, gitlab_auth W url token = Ok gl →
         is_Some (gl_user gl !! "username")) →
  get_commits_data W url token days true threads
  = get_commits_data W url token days false threads.
Proof.
  intros Huser.
  assert (Hclient : get_gitlab_client W url token true
                    = get_gitlab_client W url token false).
  { unfold get_gitlab_client.
    destruct (gitlab_auth W url token) as [gl|e] eqn:Hauth; [|done].
    destruct (Huser gl eq_refl) as [username Hname].
    rewrite !result_bind_Ok. unfold getattr. by rewrite Hname. }
  unfold get_commits_data, collect_report. rewrite Hclient.
  destruct (get_gitlab_client W url token false) as [gl|e]; [|done].
  rewrite !result_bind_Ok.
  change (get_all_projects gl true) with (get_all_projects gl false).
  destruct (get_all_projects gl false) as [projects|e]; [|done].
  rewrite !result_bind_Ok.
  change (get_all_users W gl true threads)
    with (get_all_users W gl false threads).
  destruct (get_all_users W gl false threads) as [users|e]; [|done].
  rewrite !result_bind_Ok. by rewrite get_today_commits_debug.
Qed.

(** X17: with the debug flag set, a user without [username] makes
    [get_gitlab_client] raise after a successful authentication, and the
    run returns the failure report; without the flag the client is
    returned. *)
Theorem debug_needs_username (url token : string) (days threads : Z)
    (gl : Gitlab) :
  gitlab_auth W url token = Ok gl →
  gl_user gl !! "username" = None →
  get_gitlab_client W url token false = Ok gl
  ∧ get_commits_data W url token days true threads
    = Ok (error_report W (Exn "AttributeError" "username")).
Proof.
  intros Hauth Hname.
  unfold get_commits_data, collect_report, get_gitlab_client.
  rewrite Hauth, !result_bind_Ok. unfold getattr. by rewrite Hname.
Qed.

End Debug.

Lemma get_commits_data_debug_witness :
  get_commits_data Mock.world Mock.url "glpat-admin" 1 true 0
  = get_commits_data Mock.world Mock.url "glpat-admin" 1 false 0.
Proof.
  apply (get_commits_data_debug Mock.world Mock.url "glpat-admin" 1 0).
  intros gl [= <-]. eexists. reflexivity.
Defined.

Lemma debug_needs_username_witness :
  get_gitlab_client Variants.anonymous Mock.url "glpat-admin" false
  = Ok Variants.anonymous_gl
  ∧ get_commits_data Variants.anonymous Mock.url "glpat-admin" 1 true 0
    = Ok (error_report Variants.anonymous (Exn "AttributeError" "username")).
Proof.
  exact (debug_needs_username Variants.anonymous Mock.url "glpat-admin" 1 0
           Variants.anonymous_gl eq_refl eq_refl).
Defined.

(** ** Writing the report *)

Section Writing.
Context (B : Builtins).

Lemma io_bind_Ok {A C : Type} (c : file_io A) (k : A → file_io C)
    (out out' : list string) (a : A) :
  c out = (Ok a, out') → (c ≫= k) out = k a out'.
Proof. unfold mbind, file_io_bind. by intros ->. Qed.

Lemma io_bind_Raise {A C : Type} (c : file_io A) (k : A → file_io C)
    (out out' : list string) (e : exn) :
  c out = (Raise e, out') → (c ≫= k) out = (Raise e, out').
Proof. unfold mbind, file_io_bind. by intros ->. Qed.

Lemma appends_write (s : string) : appends (f_write s).
Proof. intros out. by exists [s]. Qed.

Lemma appends_bind (c : file_io unit) (k : file_io unit) :
  appends c → appends k → appends (_ ← c; k).
Proof.
  intros Hc Hk out. destruct (Hc out) as [m1 H1].
  rewrite (io_bind_Ok _ _ _ _ _ H1).
  destruct (Hk (out ++ m1)) as [m2 H2]. rewrite H2.
  exists (m1 ++ m2). by rewrite app_assoc.
Qed.

Lemma fails_bind_l (c : file_io unit) (k : file_io unit) :
  fails c → fails (_ ← c; k).
Proof.
  intros Hc out. specialize (Hc out).
  destruct (c out) as [[[]|e] out'] eqn:H; [done|].
  by rewrite (io_bind_Raise _ _ _ _ _ H).
Qed.

Lemma fails_bind_r (c : file_io unit) (k : file_io unit) :
  appends c → fails k → fails (_ ← c; k).
Proof.
  intros Hc Hk out. destruct (Hc out) as [m1 H1].
  rewrite (io_bind_Ok _ _ _ _ _ H1). apply Hk.
Qed.

Lemma appends_not_fails (c : file_io unit) : appends c → fails c → False.
Proof.
  intros Ha Hf. destruct (Ha []) as [m H]. specialize (Hf []).
  by rewrite H in Hf.
Qed.

Lemma appends_io_for {A : Type} (body : A → file_io unit) (xs : list A) :
  Forall (fun x => appends (body x)) xs → appends (io_for body xs).
Proof.
  induction 1 as [|x xs Hx Hxs IH]; simpl.
  - intros out. exists []. by rewrite app_nil_r.
  - by apply appends_bind.
Qed.

Lemma fails_io_for {A : Type} (body : A → file_io unit) (xs : list A) :
  Forall (fun x => appends (body x) ∨ fails (body x)) xs →
  Exists (fun x => fails (body x)) xs →
  fails (io_for body xs).
Proof.
  induction 1 as [|x xs Hx Hxs IH]; intros Hex; simpl.
  - by inversion Hex.
  - destruct Hx as [Hx|Hx]; [|by apply fails_bind_l].
    apply fails_bind_r; [done|]. apply IH.
    inversion Hex as [? ? Hfx|]; subst; [|done].
    destruct (appends_not_fails _ Hx Hfx).
Qed.

(** An entry of a diff is written when it has a [new_path]. *)
Lemma write_diff_item_outcome (entry : gmap string pyval) :
  match entry !! "new_path" with
  | Some _ => appends (write_diff_item B entry)
  | None => fails (write_diff_item B entry)
  end.
Proof.
  unfold write_diff_item, dict_item, dict_get.
  destruct (entry !! "new_path") as [new_path|] eqn:Hnew.
  - destruct (py_truthy (default (PyBool false) (entry !! "new_file"))).
    + intros out. by eexists [_].
    + destruct (entry !! "old_path") as [old_path|] eqn:Hold; simpl.
      * destruct (py_truthy old_path); simpl.
        -- destruct (py_ne B old_path new_path); intros out.
           ++ eexists [_; _]. unfold mbind, file_io_bind, io_lift, f_write.
              simpl. by rewrite <- app_assoc.
           ++ by eexists [_].
        -- intros out. by eexists [_].
      * intros out. by eexists [_].
  - destruct (py_truthy (default (PyBool false) (entry !! "new_file")));
      intros out; done.
Qed.

Lemma write_commit_outcome (numbered : Z * CommitRecord) :
  (Forall (fun entry : gmap string pyval => is_Some (entry !! "new_path"))
          (diff numbered.2) → appends (write_commit B numbered))
  ∧ (¬ Forall (fun entry : gmap string pyval => is_Some (entry !! "new_path"))
              (diff numbered.2) → fails (write_commit B numbered)).
Proof.
  destruct numbered as [i commit]. unfold write_commit. simpl.
  assert (Hall : Forall (fun entry => appends (write_diff_item B entry)
                                      ∨ fails (write_diff_item B entry))
                        (diff commit)).
  { apply Forall_forall. intros entry _.
    pose proof (write_diff_item_outcome entry) as H.
    destruct (entry !! "new_path"); [by left|by right]. }
  split.
  - intros Hentries.
    repeat (apply appends_bind; [apply appends_write|]).
    apply appends_bind; [|apply appends_write].
    destruct (diff commit) as [|entry entries] eqn:Hdiff;
      [apply appends_write|].
    apply appends_bind; [apply appends_write|].
    apply (appends_io_for (write_diff_item B) (entry :: entries)).
    eapply Forall_impl; [exact Hentries|].
    intros x [v Hx]. pose proof (write_diff_item_outcome x) as H.
    by rewrite Hx in H.
  - intros Hentries.
    repeat (apply fails_bind_r; [apply appends_write|]).
    apply fails_bind_l.
    destruct (diff commit) as [|entry entries] eqn:Hdiff;
      [destruct Hentries; constructor|].
    apply fails_bind_r; [apply appends_write|].
    apply (fails_io_for (write_diff_item B) (entry :: entries)); [done|].
    apply not_Forall_Exists in Hentries; [|intros x; apply _].
    eapply Exists_impl; [exact Hentries|].
    intros x Hx. pose proof (write_diff_item_outcome x) as H.
    destruct (x !! "new_path") as [p|] eqn:E; [|done].
    exfalso. apply Hx. by exists p.
Qed.

Lemma enumerate_snd {A : Type} (xs : list A) (start : Z) :
  map snd (enumerate xs start) = xs.
Proof.
  revert start. induction xs as [|x xs IH]; intros start; simpl; [done|].
  by rewrite IH.
Qed.

Lemma write_metadata_outcome (data : Report) (label key : string) :
  match metadata data !! key with
  | Some _ => appends (write_metadata B data label key)
  | None => fails (write_metadata B data label key)
  end.
Proof.
  unfold write_metadata, dict_item.
  destruct (metadata data !! key); intros out; [by eexists [_]|done].
Qed.

Lemma write_commits_outcome (data : Report) :
  let body := match commits data with
              | [] => f_write ("No commits found in the specified time range."
                               +:+ nl)
              | _ => io_for (write_commit B) (enumerate (commits data) 1)
              end in
  (Forall (fun commit =>
             Forall (fun entry : gmap string pyval =>
                       is_Some (entry !! "new_path")) (diff commit))
          (commits data) → appends body)
  ∧ (¬ Forall (fun commit =>
                 Forall (fun entry : gmap string pyval =>
                           is_Some (entry !! "new_path")) (diff commit))
              (commits data) → fails body).
Proof.
  cbv zeta.
  destruct (commits data) as [|c cs] eqn:Hcs.
  { split; [intros _; apply appends_write|]. intros H. destruct H. constructor. }
  rewrite <- Hcs. clear Hcs. generalize (commits data) as xs. intros xs.
  assert (Hall : ∀ numbered : list (Z * CommitRecord),
    Forall (fun n => appends (write_commit B n) ∨ fails (write_commit B n))
           numbered).
  { intros numbered. apply Forall_forall. intros n _.
    destruct (decide (Forall (fun entry : gmap string pyval =>
                                is_Some (entry !! "new_path")) (diff n.2)))
      as [Hn|Hn].
    - left. by apply write_commit_outcome.
    - right. by apply write_commit_outcome. }
  split.
  - intros Hxs. apply appends_io_for.
    apply Forall_forall. intros n Hn. apply write_commit_outcome.
    rewrite Forall_forall in Hxs. apply Hxs.
    rewrite <- (enumerate_snd xs 1). apply list_elem_of_fmap. by exists n.
  - intros Hxs. apply fails_io_for; [apply Hall|].
    apply not_Forall_Exists in Hxs; [|intros x; apply _].
    rewrite <- (enumerate_snd xs 1) in Hxs.
    apply Exists_exists in Hxs as (c0 & Hin & Hc0).
    apply list_elem_of_fmap in Hin as (n & -> & Hn).
    apply Exists_exists. exists n. split; [done|].
    by apply write_commit_outcome.
Qed.

(** Whether [write_report] returns. *)
Lemma write_report_outcome (data : Report) :
  (printable data → appends (write_report B data))
  ∧ (¬ printable data → fails (write_report B data)).
Proof.
  unfold write_report, printable, report_keys.
  pose proof (write_metadata_outcome data "Generated: " "date") as H1.
  pose proof (write_metadata_outcome data "GitLab URL: " "gitlab_url") as H2.
  pose proof (write_metadata_outcome data "Days included: " "days_included")
    as H3.
  pose proof (write_metadata_outcome data "Projects count: " "projects_count")
    as H4.
  pose proof (write_metadata_outcome data "Users count: " "users_count") as H5.
  pose proof (write_metadata_outcome data "Commits count: " "commits_count")
    as H6.
  destruct (write_commits_outcome data) as [Hbody Hnobody].
  split.
  - intros [Hkeys Hentries].
    rewrite !Forall_cons in Hkeys.
    destruct Hkeys as ([? K1] & [? K2] & [? K3] & [? K4] & [? K5] & [? K6] & _).
    rewrite K1 in H1. rewrite K2 in H2. rewrite K3 in H3. rewrite K4 in H4.
    rewrite K5 in H5. rewrite K6 in H6.
    repeat (apply appends_bind; [done || apply appends_write|]).
    by apply Hbody.
  - intros Hnot.
    apply fails_bind_r; [apply appends_write|].
    destruct (metadata data !! "date") eqn:K1; [|by apply fails_bind_l].
    apply fails_bind_r; [done|].
    destruct (metadata data !! "gitlab_url") eqn:K2; [|by apply fails_bind_l].
    apply fails_bind_r; [done|].
    destruct (metadata data !! "days_included") eqn:K3;
      [|by apply fails_bind_l].
    apply fails_bind_r; [done|].
    destruct (metadata data !! "projects_count") eqn:K4;
      [|by apply fails_bind_l].
    apply fails_bind_r; [done|].
    destruct (metadata data !! "users_count") eqn:K5; [|by apply fails_bind_l].
    apply fails_bind_r; [done|].
    destruct (metadata data !! "commits_count") eqn:K6;
      [|by apply fails_bind_l].
    apply fails_bind_r; [done|].
    apply fails_bind_r; [apply appends_write|].
    apply Hnobody. intros Hentries. apply Hnot. split; [|done].
    rewrite !Forall_cons, K1, K2, K3, K4, K5, K6. repeat split; eauto.
Qed.

(** X18: once the file is open, [save_to_txt] returns exactly for the
    reports whose metadata has the keys [date], [gitlab_url],
    [days_included], [projects_count], [users_count] and [commits_count]
    and whose diff entries all have a [new_path]; for any other report it
    raises. *)
Theorem save_to_txt_returns_iff_printable (data : Report) (path : string) :
  file_open B path = Ok () →
  is_ok (save_to_txt B data path).1 = true ↔ printable data.
Proof.
  intros Hopen. unfold save_to_txt. rewrite Hopen.
  destruct (write_report_outcome data) as [Hyes Hno]. split.
  - intros Hok. destruct (decide (printable data)) as [H|H]; [done|].
    specialize (Hno H []). by rewrite Hok in Hno.
  - intros H. destruct (Hyes H []) as [more ->]. done.
Qed.

End Writing.

Lemma save_to_txt_returns_iff_printable_witness :
  printable Mock.report
  ∧ is_ok (save_to_txt Plain.builtins Mock.report "gitlab_commits.txt").1
    = true.
Proof.
  assert (Hprintable : printable Mock.report).
  { split; repeat constructor; eexists; reflexivity. }
  split; [exact Hprintable|].
  exact (proj2 (save_to_txt_returns_iff_printable Plain.builtins Mock.report
                  "gitlab_commits.txt" eq_refl) Hprintable).
Defined.

(** ** [main] and the endpoints *)

Lemma string_substring_app (a s : string) (k : nat) :
  String.substring (String.length a) k (a +:+ s) = String.substring 0 k s.
Proof.
  induction a as [|c a IH]; [done|].
  change (String c a +:+ s) with (String c (a +:+ s)). simpl. exact IH.
Qed.

Lemma string_substring_all (s : string) :
  String.substring 0 (String.length s) s = s.
Proof. induction s as [|c s IH]; simpl; [done|]. by rewrite IH. Qed.

Lemma str_endswith_app (a s : string) : str_endswith (a +:+ s) s = true.
Proof.
  unfold str_endswith. rewrite string_length_app.
  replace (String.length a + String.length s - String.length s)%nat
    with (String.length a) by lia.
  rewrite string_substring_app, string_substring_all, String.eqb_refl.
  apply andb_true_intro. split; [apply Nat.leb_le; lia|done].
Qed.

Section Shells.
Context (B : Builtins) (W : World).

(** A report of a run that did not fail can be written as text. *)
Lemma collect_report_printable (url token : string) (days : Z)
    (debug : bool) (threads : Z) (report : Report) :
  collect_report W url token days debug threads = Ok report →
  printable report.
Proof.
  intros Hrun. split.
  - destruct (collect_report_Ok _ _ _ _ _ _ _ Hrun)
      as (gl & projects & users & _ & _ & _ & _ & ->).
    unfold report_keys. repeat constructor; eexists; reflexivity.
  - eapply Forall_impl;
      [exact (collect_report_diff_entries W _ _ _ _ _ _ Hrun)|].
    intros record Hrecord. eapply Forall_impl; [exact Hrecord|].
    by intros entry (_ & Hnew & _).
Qed.

Lemma error_report_not_printable (e : exn) : ¬ printable (error_report W e).
Proof.
  intros [Hkeys _]. unfold report_keys in Hkeys.
  rewrite !Forall_cons in Hkeys. destruct Hkeys as (_ & [v Hv] & _).
  discriminate.
Qed.

(** X19: when the output file can be opened, [main] in text format
    returns exactly when the run did not fail, and raises
    [KeyError('gitlab_url')] after a failed run, leaving a file with the
    title line and the line of the date; in JSON format it returns after
    every run, the file holding the report returned, the failure report
    included. *)
Theorem main_outcome (args : Args) :
  file_open B (output_file B args) = Ok () →
  (main B W args).1 = output_file B args
  ∧ match args_format args with
    | txt =>
        match collect_report W (args_url args) (args_admin_token args)
                (args_days args) (args_debug args) (args_threads args) with
        | Ok report => is_ok (main B W args).2.1 = true
        | Raise e =>
            (main B W args).2
            = (Raise (Exn "KeyError" "'gitlab_url'"),
               [ "=== GITLAB COMMITS REPORT ===" +:+ nl;
                 "Generated: "
                 +:+ py_str B (PyStr (isoformat W (datetime_now (now_report W))))
                 +:+ nl ])
        end
    | json =>
        ∃ report,
          get_commits_data W (args_url args) (args_admin_token args)
            (args_days args) (args_debug args) (args_threads args) = Ok report
          ∧ (main B W args).2 = (Ok (), [json_dumps B report])
    end.
Proof.
  intros Hopen. unfold main, get_commits_data.
  destruct (collect_report W _ _ _ _ _) as [report|e] eqn:Hrun;
    unfold try_except; simpl fst; (split; [done|]);
    destruct (args_format args) eqn:Hformat; simpl snd.
  - unfold save_to_txt. rewrite Hopen.
    destruct (proj1 (write_report_outcome B report)
                (collect_report_printable _ _ _ _ _ _ Hrun) [])
      as [more ->].
    done.
  - exists report. split; [done|]. unfold save_to_json. by rewrite Hopen.
  - unfold save_to_txt. by rewrite Hopen.
  - exists (error_report W e). split; [done|].
    unfold save_to_json. by rewrite Hopen.
Qed.

(** X20: in JSON format the name of the file [main] writes always ends in
    [.json]: it is the name given when that one does, and otherwise the
    name given with its extension replaced; in text format it is the name
    given. *)
Theorem output_file_extension (args : Args) :
  match args_format args with
  | json =>
      str_endswith (output_file B args) ".json" = true
      ∧ (str_endswith (args_output args) ".json" = true →
         output_file B args = args_output args)
      ∧ (str_endswith (args_output args) ".json" = false →
         output_file B args = splitext_root B (args_output args) +:+ ".json")
  | txt => output_file B args = args_output args
  end.
Proof.
  unfold output_file. destruct (args_format args); [done|].
  destruct (str_endswith (args_output args) ".json") eqn:Hext.
  - by repeat split.
  - split; [apply str_endswith_app|]. by split.
Qed.

(** X21: both endpoints return the report of a run that did not fail,
    which has no [error] in its metadata, and answer a failed run with
    [HTTPException(500)] whose detail is the text of the
    [HTTPException] raised for the [error] of the failure report. They
    never return a report with an [error]. *)
Theorem endpoints_outcome (url token : string) (days : Z) (debug : bool)
    (threads : Z) :
  get_commits B W url token days debug threads
  = match collect_report W url token days debug threads with
    | Ok report => Respond report
    | Raise e =>
        HTTPException 500
          (http_exception_str B 500 (PyStr (error_message e)))
    end
  ∧ get_commits_by_get B W url days debug threads token
    = get_commits B W url token days debug threads
  ∧ ∀ report, get_commits B W url token days debug threads = Respond report →
              metadata report !! "error" = None.
Proof.
  assert (Hmeta : ∀ report,
    collect_report W url token days debug threads = Ok report →
    metadata report !! "error" = None).
  { intros report Hrun.
    destruct (collect_report_Ok _ _ _ _ _ _ _ Hrun)
      as (gl & projects & users & _ & _ & _ & _ & ->). done. }
  assert (Heq : get_commits B W url token days debug threads
    = match collect_report W url token days debug threads with
      | Ok report => Respond report
      | Raise e =>
          HTTPException 500
            (http_exception_str B 500 (PyStr (error_message e)))
      end).
  { unfold get_commits, respond, get_commits_data.
    destruct (collect_report W url token days debug threads)
      as [report|e] eqn:Hrun; [|done].
    unfold try_except. rewrite result_bind_Ok. by rewrite (Hmeta report). }
  split; [exact Heq|]. split; [done|].
  intros report. rewrite Heq.
  destruct (collect_report W url token days debug threads) as [r|e] eqn:Hrun;
    [|done].
  intros [= <-]. by apply Hmeta.
Qed.

End Shells.

Lemma main_outcome_witness :
  (main Plain.builtins Mock.world (Plain.args "expired" txt)).2
  = (Raise (Exn "KeyError" "'gitlab_url'"),
     [ "=== GITLAB COMMITS REPORT ===" +:+ nl;
       "Generated: 2025-06-15T14:30:09.125000" +:+ nl ])
  ∧ (main Plain.builtins Mock.world (Plain.args "expired" json)).1
    = "gitlab_commits.json"
  ∧ is_ok (main Plain.builtins Mock.world (Plain.args "expired" json)).2.1
    = true.
Proof.
  destruct (main_outcome Plain.builtins Mock.world (Plain.args "expired" txt)
              eq_refl) as [_ Htxt].
  destruct (main_outcome Plain.builtins Mock.world (Plain.args "expired" json)
              eq_refl) as [Hname (report & _ & Hjson)].
  split; [exact Htxt|]. split; [exact Hname|].
  rewrite Hjson. reflexivity.
Defined.

(** ** A run without projects *)

Section EmptyEnumeration.
Context (W : World).

(** X22: when the enumeration of the projects returns the empty list,
    which is also what it returns when it fails, the run does not fail:
    with a window and a pool, the report has no commit, counts 0 projects
    and 0 commits and carries no [error]. *)
Theorem no_projects_no_commits (url token : string) (days : Z) (debug : bool)
    (threads : Z) (gl : Gitlab) :
  get_gitlab_client W url token debug = Ok gl →
  get_all_projects gl debug = Ok [] →
  is_ok (commit_window W days) = true →
  pool_available W threads →
  ∃ report,
    get_commits_data W url token days debug threads = Ok report
    ∧ commits report = []
    ∧ metadata report !! "projects_count" = Some (PyInt 0)
    ∧ metadata report !! "commits_count" = Some (PyInt 0)
    ∧ metadata report !! "error" = None.
Proof.
  intros Hgl Hprojects Hwin Hpool.
  destruct (get_all_users_never_raises W gl debug threads) as [users Husers].
  assert (Hcommits : get_today_commits W gl [] days debug threads = Ok []).
  { unfold get_today_commits.
    destruct (commit_window W days) as [[start_date end_date]|e]; [|done].
    rewrite result_bind_Ok.
    destruct (pool_created W threads 32 4 Hpool) as (w & -> & Hexec);
      [lia..|].
    rewrite result_bind_Ok, Hexec, result_bind_Ok. cbv zeta. simpl map.
    pose proof (as_completed_perm W _
                  (@nil (result (list CommitRecord) * pyval))) as Hperm.
    apply Permutation_nil_r in Hperm. unfold as_completed in *.
    by rewrite Hperm. }
  unfold get_commits_data, collect_report.
  rewrite Hgl, result_bind_Ok, Hprojects, result_bind_Ok, Husers,
    result_bind_Ok, Hcommits, result_bind_Ok.
  eexists. split; [done|]. by repeat split.
Qed.

End EmptyEnumeration.

Lemma no_projects_no_commits_witness :
  get_all_projects (Paged.gl 2) false = Ok []
  ∧ ∃ report,
      get_commits_data Variants.broken_pages Mock.url "glpat-admin" 1 false 0
      = Ok report
      ∧ commits report = []
      ∧ metadata report !! "projects_count" = Some (PyInt 0)
      ∧ metadata report !! "commits_count" = Some (PyInt 0)
      ∧ metadata report !! "error" = None.
Proof.
  split; [reflexivity|].
  apply (no_projects_no_commits Variants.broken_pages Mock.url "glpat-admin"
           1 false 0 (Paged.gl 2)).
  - reflexivity.
  - reflexivity.
  - reflexivity.
  - right. exists 4. split; [reflexivity|lia].
Defined.
